(** * Trackmates: the Fastify server bootstrap, a controller and three
      frontend units, embedded shallowly.

    Sources embedded here:
    - [BaseServerApplication] (server bootstrap: error handler, validator
      compiler, route registration, plugins, static serving, [init]);
    - [CourseController] (GET root route);
    - the [add] thunk of the user-courses slice;
    - the React components [NotificationListItem] and [FriendsTab].

    Conventions of the embedding.
    - A JavaScript call that is [await]ed may reject; what it rejects with
      is decided by an environment ([rejects]) that sees the calls issued
      so far.  Synchronous calls into libraries ([app.route],
      [logger.info], [notification.success], ...) are recorded and return.
    - Every call into a library or a collaborator is recorded as an
      [Event], in the order the program issues it. *)

From Stdlib Require Import List String Ascii ZArith Bool Lia DecimalString
  Permutation.
Import ListNotations.

Local Open Scope string_scope.
Local Open Scope Z_scope.

(* ================================================================== *)
(** * JavaScript values, errors and promise outcomes                  *)
(* ================================================================== *)

(** JSON-like data: request bodies, DTOs, swagger documents. *)
#[local] Unset Elimination Schemes.
Inductive JsValue : Type :=
| JUndefined
| JNull
| JBool (b : bool)
| JNum (z : Z)
| JStr (s : string)
| JArr (items : list JsValue)
| JObj (fields : list (string * JsValue)).
#[local] Set Elimination Schemes.

(** [n.toString()] and [`${n}`] for an integer [n]. *)
Definition Z_toString (z : Z) : string :=
  NilZero.string_of_int (Z.to_int z).

(** [xs.join(sep)]. *)
Fixpoint join (sep : string) (xs : list string) : string :=
  match xs with
  | [] => ""
  | [x] => x
  | x :: rest => x ++ sep ++ join sep rest
  end.

(** One element of a validation issue's [path]: a key or an index. *)
Inductive PathSegment : Type :=
| PKey (key : string)
| PIndex (index : Z).

Definition PathSegment_toString (p : PathSegment) : string :=
  match p with
  | PKey k => k
  | PIndex i => Z_toString i
  end.

(** [path.toString()] of an array: the elements joined by commas. *)
Definition path_toString (path : list PathSegment) : string :=
  join "," (map PathSegment_toString path).

Module Issue.
Record t : Type := { message : string; path : list PathSegment }.
End Issue.

(** An error object as the handlers inspect it:
    - [issues] is [Some _] exactly when ["issues" in error] holds;
    - [status] is [Some s] exactly when [error instanceof HTTPError], and
      then [s] is [error.status]. *)
Module ErrorObject.
Record t : Type := {
  message : string;
  issues : option (list Issue.t);
  status : option Z;
  cause : option string;
  stack : option string
}.
End ErrorObject.

(** What a [catch (error)] clause receives, of type [unknown]: an
    [Error] instance or any other value. *)
Inductive Thrown : Type :=
| ThrownError (e : ErrorObject.t)
| ThrownValue (v : JsValue).

(** Outcome of a call that may throw, or of an awaited promise. *)
Inductive Outcome (E A : Type) : Type :=
| Resolved (a : A)
| Rejected (e : E).
Arguments Resolved {E A} a.
Arguments Rejected {E A} e.

(** Modelled from the spec: the [HTTPCode] enum of
    [~/libs/modules/http] is not under src/; the members used by the
    embedded code carry the standard status numbers. *)
Module HTTPCode.
Definition OK : Z := 200.
Definition UNPROCESSED_ENTITY : Z := 422.
Definition INTERNAL_SERVER_ERROR : Z := 500.
End HTTPCode.

(** The [ServerErrorType] enum; the embedded code uses two members. *)
Module ServerErrorType.
Inductive t : Type := COMMON | VALIDATION.
End ServerErrorType.

(** The [ContentType] enum; the embedded code uses two members, any
    other content type is [OTHER]. *)
Module ContentType.
Inductive t : Type := JPEG | PNG | OTHER (mime : string).

Definition eqb (a b : t) : bool :=
  match a, b with
  | JPEG, JPEG => true
  | PNG, PNG => true
  | OTHER x, OTHER y => String.eqb x y
  | _, _ => false
  end.
End ContentType.

(* ================================================================== *)
(** * Logger                                                          *)
(* ================================================================== *)

Module Logger.
Record Meta : Type := { cause : option string; stack : option string }.

Inductive Entry : Type :=
| info (msg : string)
| error (msg : string) (meta : option Meta).
End Logger.

(* ================================================================== *)
(** * Fastify: replies, requests, routes                              *)
(* ================================================================== *)

(** Payloads of the error handler's responses
    ([ServerValidationErrorResponse] has [details],
    [ServerCommonErrorResponse] has none). *)
Module ErrorResponse.
Record Detail : Type := { detail_message : string; detail_path : list PathSegment }.

Record t : Type := {
  details : option (list Detail);
  errorType : ServerErrorType.t;
  message : string
}.
End ErrorResponse.

(** What [reply.send] / [reply.sendFile] puts on the wire. *)
Inductive Body : Type :=
| ErrorBody (r : ErrorResponse.t)
| DataBody (payload : JsValue)
| FileBody (filename root : string).

Module Reply.
(** [statusCode] is the status the next [send] will use; [sent] lists
    the responses sent so far, each with its status. *)
Record t : Type := { statusCode : Z; sent : list (Z * Body) }.

Definition fresh : t := {| statusCode := HTTPCode.OK; sent := [] |}.

Definition status (code : Z) (r : t) : t :=
  {| statusCode := code; sent := sent r |}.

Definition send (b : Body) (r : t) : t :=
  {| statusCode := statusCode r; sent := (sent r ++ [(statusCode r, b)])%list |}.

Definition sendFile (filename root : string) (r : t) : t :=
  send (FileBody filename root) r.
End Reply.

Module Request.
Record t : Type := {
  method : string;
  url : string;
  body : JsValue;
  params : JsValue;
  query : JsValue
}.
End Request.

(** A validation schema is used only through [parse], which returns the
    parsed value or throws a [ValidationError]. *)
Module ValidationSchema.
Record t : Type := { parse : JsValue -> Outcome ErrorObject.t JsValue }.
End ValidationSchema.

(** A request-time computation: it may log, and returns a value. *)
Definition Logged (A : Type) : Type := (list Logger.Entry * A)%type.

Definition Handler : Type :=
  Request.t -> Reply.t -> Outcome ErrorObject.t Reply.t.

Definition PreHandler : Type :=
  Request.t -> Outcome ErrorObject.t unit.

Definition Validator : Type := JsValue -> Outcome ErrorObject.t JsValue.

Definition ValidatorCompiler : Type := ValidationSchema.t -> Validator.

Definition ErrorHandler : Type :=
  ErrorObject.t -> Request.t -> Reply.t -> Logged Reply.t.

Definition NotFoundHandler : Type :=
  Request.t -> Reply.t -> Outcome ErrorObject.t Reply.t.

(** The [validation] object of a route's parameters. *)
Module Validation.
Record t : Type := {
  body : option ValidationSchema.t;
  params : option ValidationSchema.t;
  query : option ValidationSchema.t
}.
End Validation.

(** [ServerApplicationRouteParameters]; [preHandlers] and [validation]
    are optional. *)
Module RouteParameters.
Record t : Type := {
  handler : Handler;
  method : string;
  path : string;
  preHandlers : option (list PreHandler);
  validation : option Validation.t
}.
End RouteParameters.

(** Fastify's [RouteOptions], as far as [addRoute] fills them. *)
Module RouteOptions.
Record Schema : Type := {
  body : option ValidationSchema.t;
  params : option ValidationSchema.t;
  querystring : option ValidationSchema.t
}.

Record t : Type := {
  handler : Handler;
  method : string;
  schema : Schema;
  url : string;
  preHandler : list PreHandler
}.
End RouteOptions.

(* ================================================================== *)
(** * Calls issued by the server bootstrap                            *)
(* ================================================================== *)

(** An object the bootstrap only passes along (a service, the token
    module), identified by its name. *)
Definition ObjectRef : Type := string.

(** Plugins handed to [app.register], each with the options the
    bootstrap passes. *)
Module Plugin.
Inductive t : Type :=
| fastifyCors (origin : string) (methods : list string)
| fastifyStatic (prefix root : string)
| swagger (mode : string) (document : JsValue)
| swaggerUi (routePrefix : string)
| authorization (userService token : ObjectRef) (whiteRoutes : JsValue)
| fileUpload (allowedExtensions : list ContentType.t) (fileSize : Z).
End Plugin.

Inductive Event : Type :=
| Log (entry : Logger.Entry)
| Register (plugin : Plugin.t)
| SetNotFoundHandler (h : NotFoundHandler)
| SetValidatorCompiler (c : ValidatorCompiler)
| SetErrorHandler (h : ErrorHandler)
| Route (options : RouteOptions.t)
| SocketInitialize
| InitCrone
| DatabaseConnect
| Listen (host : string) (port : Z).

(** ** Computations that record the calls they issue

    A computation extends the trace of calls (of type [Ev]) and finishes
    normally or with a thrown value. *)
Definition Traced (Ev A : Type) : Type :=
  list Ev -> list Ev * Outcome Thrown A.

Definition ret {Ev A : Type} (a : A) : Traced Ev A :=
  fun tr => (tr, Resolved a).

Definition bind {Ev A B : Type} (c : Traced Ev A) (k : A -> Traced Ev B)
  : Traced Ev B :=
  fun tr =>
    match c tr with
    | (tr', Resolved a) => k a tr'
    | (tr', Rejected t) => (tr', Rejected t)
    end.

Definition throw {Ev A : Type} (t : Thrown) : Traced Ev A :=
  fun tr => (tr, Rejected t).

(** [try { c } catch (error) { h error }]. *)
Definition try_catch {Ev A : Type} (c : Traced Ev A) (h : Thrown -> Traced Ev A)
  : Traced Ev A :=
  fun tr =>
    match c tr with
    | (tr', Resolved a) => (tr', Resolved a)
    | (tr', Rejected t) => h t tr'
    end.

(** A synchronous library call: recorded, returns. *)
Definition call {Ev : Type} (ev : Ev) : Traced Ev unit :=
  fun tr => ((tr ++ [ev])%list, Resolved tt).

Declare Scope traced_scope.
Delimit Scope traced_scope with traced.
Notation "c1 ;; c2" := (bind c1 (fun _ => c2))
  (at level 61, right associativity) : traced_scope.
Notation "x <- c1 ;; c2" := (bind c1 (fun x => c2))
  (at level 61, c1 at next level, right associativity) : traced_scope.

(** [for (let x of xs) { f x }]. *)
Fixpoint for_of {Ev A : Type} (xs : list A) (f : A -> Traced Ev unit)
  : Traced Ev unit :=
  match xs with
  | [] => ret tt
  | x :: rest => bind (f x) (fun _ => for_of rest f)
  end.

(** Runs a computation from the empty trace. *)
Definition run {Ev A : Type} (c : Traced Ev A) : list Ev * Outcome Thrown A :=
  c [].

(** The environment of the bootstrap: given the calls issued so far and
    an awaited call, [None] when its promise resolves, [Some t] when it
    rejects with [t]. *)
Definition Rejects : Type := list Event -> Event -> option Thrown.

Definition Boot (A : Type) : Type := Traced Event A.

(** [await] of a library call: recorded, then resolved or rejected as
    the environment decides. *)
Definition await (rejects : Rejects) (ev : Event) : Boot unit :=
  fun tr =>
    match rejects tr ev with
    | None => ((tr ++ [ev])%list, Resolved tt)
    | Some t => ((tr ++ [ev])%list, Rejected t)
    end.

(* ================================================================== *)
(** * BaseServerApplication                                           *)
(* ================================================================== *)

Module Config.
(** [config.ENV.APP]. *)
Record t : Type := { HOST : string; PORT : Z; ENVIRONMENT : string }.
End Config.

(** [ServerApplicationApi]. *)
Module Api.
Record t : Type := {
  version : string;
  generateDoc : string -> JsValue;
  routes : list RouteParameters.t
}.
End Api.

(** The fields of [this] the embedded methods read.  The logger, the
    database and the socket service only receive calls, which are
    recorded as events. *)
Module This.
Record t : Type := {
  apis : list Api.t;
  config : Config.t;
  title : string;
  userService : ObjectRef;
  token : ObjectRef
}.
End This.

(** The constructor: [Fastify({ ignoreTrailingSlash: true })] followed by
    the registration of CORS. *)
Definition constructor : Boot unit :=
  call (Register (Plugin.fastifyCors "*" ["GET"; "POST"; "PUT"; "DELETE"; "PATCH"])).

Section BaseServerApplication.

Variable rejects : Rejects.

(** Imported from modules that are not under src/: two constants, a
    helper, and the directory of the running module with Node's
    [path.join]. *)
Variable WHITE_ROUTES : JsValue.
Variable MAX_FILE_SIZE_IN_MB : Z.
Variable getSizeInBytes : Z -> Z.
Variable moduleDir : string.
Variable pathJoin : string -> string -> string.

Variable this : This.t.

Definition initCrons : Boot unit := call InitCrone.

(** The function handed to [setErrorHandler]. *)
Definition errorHandler : ErrorHandler :=
  fun error _request reply =>
    match ErrorObject.issues error with
    | Some issues =>
        let first :=
          Logger.error ("[Validation Error]: " ++ ErrorObject.message error) None in
        let each :=
          map (fun issue =>
                 Logger.error ("[" ++ path_toString (Issue.path issue) ++ "] — "
                                   ++ Issue.message issue) None)
              issues in
        let response :=
          {| ErrorResponse.details :=
               Some (map (fun issue =>
                            {| ErrorResponse.detail_message := Issue.message issue;
                               ErrorResponse.detail_path := Issue.path issue |})
                         issues);
             ErrorResponse.errorType := ServerErrorType.VALIDATION;
             ErrorResponse.message := ErrorObject.message error |} in
        (first :: each,
         Reply.send (ErrorBody response)
                    (Reply.status HTTPCode.UNPROCESSED_ENTITY reply))
    | None =>
        match ErrorObject.status error with
        | Some status =>
            let response :=
              {| ErrorResponse.details := None;
                 ErrorResponse.errorType := ServerErrorType.COMMON;
                 ErrorResponse.message := ErrorObject.message error |} in
            ([Logger.error ("[HTTP Error]: " ++ Z_toString status ++ " – "
                                ++ ErrorObject.message error) None],
             Reply.send (ErrorBody response) (Reply.status status reply))
        | None =>
            let response :=
              {| ErrorResponse.details := None;
                 ErrorResponse.errorType := ServerErrorType.COMMON;
                 ErrorResponse.message := ErrorObject.message error |} in
            ([Logger.error (ErrorObject.message error) None],
             Reply.send (ErrorBody response)
                        (Reply.status HTTPCode.INTERNAL_SERVER_ERROR reply))
        end
    end.

Definition initErrorHandler : Boot unit :=
  call (SetErrorHandler errorHandler).

Definition initPlugins : Boot unit :=
  (await rejects
     (Register (Plugin.authorization (This.userService this) (This.token this)
                                     WHITE_ROUTES)) ;;
   await rejects
     (Register (Plugin.fileUpload [ContentType.JPEG; ContentType.PNG]
                                  (getSizeInBytes MAX_FILE_SIZE_IN_MB))))%traced.

Definition staticPath : string := pathJoin moduleDir "../../../../public".

(** The function handed to [setNotFoundHandler]. *)
Definition notFoundHandler : NotFoundHandler :=
  fun _request response => Resolved (Reply.sendFile "index.html" staticPath response).

Definition initServe : Boot unit :=
  (await rejects (Register (Plugin.fastifyStatic "/" staticPath)) ;;
   call (SetNotFoundHandler notFoundHandler))%traced.

Definition initSocket : Boot unit := call SocketInitialize.

(** The function handed to [setValidatorCompiler]. *)
Definition validatorCompiler : ValidatorCompiler :=
  fun schema => fun data => ValidationSchema.parse schema data.

Definition initValidationCompiler : Boot unit :=
  call (SetValidatorCompiler validatorCompiler).

(** The [RouteOptions] that [addRoute] builds from its parameters. *)
Definition routeParameters (parameters : RouteParameters.t) : RouteOptions.t :=
  let preHandlers :=
    match RouteParameters.preHandlers parameters with
    | Some hs => hs
    | None => []
    end in
  let validation := RouteParameters.validation parameters in
  {| RouteOptions.handler := RouteParameters.handler parameters;
     RouteOptions.method := RouteParameters.method parameters;
     RouteOptions.schema :=
       {| RouteOptions.body :=
            match validation with Some v => Validation.body v | None => None end;
          RouteOptions.params :=
            match validation with Some v => Validation.params v | None => None end;
          RouteOptions.querystring :=
            match validation with Some v => Validation.query v | None => None end |};
     RouteOptions.url := RouteParameters.path parameters;
     RouteOptions.preHandler := preHandlers |}.

Definition addRoute (parameters : RouteParameters.t) : Boot unit :=
  (call (Route (routeParameters parameters)) ;;
   call (Log (Logger.info ("Route: " ++ RouteParameters.method parameters ++ " "
                                     ++ RouteParameters.path parameters
                                     ++ " is registered"))))%traced.

Definition addRoutes (parameters : list RouteParameters.t) : Boot unit :=
  for_of parameters addRoute.

Definition swaggerCall (api : Api.t) : Event :=
  Register (Plugin.swagger "static" (Api.generateDoc api (This.title this))).

Definition swaggerUiCall (api : Api.t) : Event :=
  Register (Plugin.swaggerUi (Api.version api ++ "/documentation")).

(** [apis.map(async (api) => ...)] runs every callback up to its first
    [await]: the log line and the [swagger] registration of each API,
    in [apis] order.  The result lists, per API, whether that awaited
    registration rejects. *)
Fixpoint untilFirstAwait (apis : list Api.t) (tr : list Event)
  : list Event * list (option Thrown) :=
  match apis with
  | [] => (tr, [])
  | api :: rest =>
      let tr1 :=
        (tr ++ [Log (Logger.info ("Generate swagger documentation for API "
                                    ++ Api.version api))])%list in
      let settled := rejects tr1 (swaggerCall api) in
      let '(tr2, others) := untilFirstAwait rest (tr1 ++ [swaggerCall api])%list in
      (tr2, settled :: others)
  end.

(** The callbacks whose first [await] resolved resume and register
    [swaggerUi].  The order in which they resume is decided by Fastify's
    plugin loader; they are taken in [apis] order here. *)
Fixpoint afterFirstAwait (resumed : list (Api.t * option Thrown)) (tr : list Event)
  : list Event * list (option Thrown) :=
  match resumed with
  | [] => (tr, [])
  | (_, Some _) :: rest => afterFirstAwait rest tr
  | (api, None) :: rest =>
      let settled := rejects tr (swaggerUiCall api) in
      let '(tr1, others) := afterFirstAwait rest (tr ++ [swaggerUiCall api])%list in
      (tr1, settled :: others)
  end.

Fixpoint firstRejection (settled : list (option Thrown)) : option Thrown :=
  match settled with
  | [] => None
  | Some t :: _ => Some t
  | None :: rest => firstRejection rest
  end.

(** [await Promise.all(apis.map(async ...))]: rejects with the first
    rejection among the callbacks, resolves when all of them do. *)
Definition initMiddlewares : Boot unit :=
  fun tr =>
    let '(tr1, first) := untilFirstAwait (This.apis this) tr in
    let '(tr2, second) := afterFirstAwait (combine (This.apis this) first) tr1 in
    match firstRejection (first ++ second) with
    | Some t => (tr2, Rejected t)
    | None => (tr2, Resolved tt)
    end.

Definition initRoutes : Boot unit :=
  let routers := flat_map Api.routes (This.apis this) in
  addRoutes routers.

Definition listening : Logger.Entry :=
  Logger.info ("Application is listening on PORT – "
                 ++ Z_toString (Config.PORT (This.config this))
                 ++ ", on ENVIRONMENT – "
                 ++ Config.ENVIRONMENT (This.config this) ++ ".").

Definition init : Boot unit :=
  (call (Log (Logger.info "Application initialization…")) ;;
   initServe ;;
   initMiddlewares ;;
   initValidationCompiler ;;
   initErrorHandler ;;
   initPlugins ;;
   initRoutes ;;
   initSocket ;;
   initCrons ;;
   call DatabaseConnect ;;
   try_catch
     (await rejects (Listen (Config.HOST (This.config this))
                            (Config.PORT (This.config this))) ;;
      call (Log listening))
     (fun error =>
        match error with
        | ThrownError e =>
            call (Log (Logger.error
                         (ErrorObject.message e)
                         (Some {| Logger.cause := ErrorObject.cause e;
                                  Logger.stack := ErrorObject.stack e |})))
        | ThrownValue _ => ret tt
        end ;;
        throw error))%traced.

End BaseServerApplication.

(* ================================================================== *)
(** * Fastify: the configured application and the request lifecycle    *)
(* ================================================================== *)

(** The part of Fastify the bootstrap relies on: the handlers and routes
    installed by the recorded calls, and the order in which a request
    goes through them (routing, validation, preHandler hooks, handler;
    a throw at any step goes to the error handler; a request without a
    route goes to the not-found handler).  Hooks added by plugins are
    outside this model. *)
Module Fastify.

Record App : Type := {
  validatorCompiler : ValidatorCompiler;
  errorHandler : ErrorHandler;
  notFoundHandler : NotFoundHandler;
  routes : list RouteOptions.t
}.

(** Effect of one recorded call on the application.  Plugins are opaque:
    the routes and hooks a registered plugin adds are not modelled. *)
Definition apply (app : App) (ev : Event) : App :=
  match ev with
  | SetValidatorCompiler c =>
      {| validatorCompiler := c; errorHandler := errorHandler app;
         notFoundHandler := notFoundHandler app; routes := routes app |}
  | SetErrorHandler h =>
      {| validatorCompiler := validatorCompiler app; errorHandler := h;
         notFoundHandler := notFoundHandler app; routes := routes app |}
  | SetNotFoundHandler h =>
      {| validatorCompiler := validatorCompiler app; errorHandler := errorHandler app;
         notFoundHandler := h; routes := routes app |}
  | Route r =>
      {| validatorCompiler := validatorCompiler app; errorHandler := errorHandler app;
         notFoundHandler := notFoundHandler app; routes := routes app ++ [r] |}
  | _ => app
  end.

(** The application after a trace of calls, starting from Fastify's
    built-in handlers [builtin]. *)
Definition configure (builtin : App) (tr : list Event) : App :=
  fold_left apply tr builtin.

Inductive Stage : Type :=
| Validation
| PreHandlers
| RouteHandler
| ErrorHandling
| NotFound.

(** One request and what happened to it. *)
Record Exchange : Type := {
  reply : Reply.t;
  logs : list Logger.Entry;
  stages : list Stage
}.

(** One part of a request against its schema.  What Fastify does with
    the value a validator returns is not modelled: a validator that
    returns lets the request through. *)
Definition validatePart (app : App) (schema : option ValidationSchema.t)
           (data : JsValue) : Outcome ErrorObject.t unit :=
  match schema with
  | None => Resolved tt
  | Some s =>
      match validatorCompiler app s data with
      | Resolved _ => Resolved tt
      | Rejected e => Rejected e
      end
  end.

(** Validation of params, body and query string, in that order. *)
Definition validate (app : App) (route : RouteOptions.t) (req : Request.t)
  : Outcome ErrorObject.t unit :=
  let schema := RouteOptions.schema route in
  match validatePart app (RouteOptions.params schema) (Request.params req) with
  | Rejected e => Rejected e
  | Resolved _ =>
      match validatePart app (RouteOptions.body schema) (Request.body req) with
      | Rejected e => Rejected e
      | Resolved _ =>
          validatePart app (RouteOptions.querystring schema) (Request.query req)
      end
  end.

Fixpoint runPreHandlers (hooks : list PreHandler) (req : Request.t)
  : Outcome ErrorObject.t unit :=
  match hooks with
  | [] => Resolved tt
  | h :: rest =>
      match h req with
      | Resolved _ => runPreHandlers rest req
      | Rejected e => Rejected e
      end
  end.

Definition onError (app : App) (e : ErrorObject.t) (req : Request.t)
           (passed : list Stage) : Exchange :=
  let '(logged, r) := errorHandler app e req Reply.fresh in
  {| reply := r; logs := logged; stages := passed ++ [ErrorHandling] |}.

Section Lifecycle.

(** The router: whether a route serves a request. *)
Variable matches : RouteOptions.t -> Request.t -> bool.

Definition lookup (app : App) (req : Request.t) : option RouteOptions.t :=
  find (fun r => matches r req) (routes app).

Definition handleRequest (app : App) (req : Request.t) : Exchange :=
  match lookup app req with
  | None =>
      match notFoundHandler app req Reply.fresh with
      | Resolved r => {| reply := r; logs := []; stages := [NotFound] |}
      | Rejected e => onError app e req [NotFound]
      end
  | Some route =>
      match validate app route req with
      | Rejected e => onError app e req [Validation]
      | Resolved _ =>
          match runPreHandlers (RouteOptions.preHandler route) req with
          | Rejected e => onError app e req [Validation; PreHandlers]
          | Resolved _ =>
              match RouteOptions.handler route req Reply.fresh with
              | Resolved r =>
                  {| reply := r; logs := [];
                     stages := [Validation; PreHandlers; RouteHandler] |}
              | Rejected e =>
                  onError app e req [Validation; PreHandlers; RouteHandler]
              end
          end
      end
  end.

End Lifecycle.

End Fastify.

(* ================================================================== *)
(** * The file-upload plugin                                          *)
(* ================================================================== *)

Module FileUpload.

Record Upload : Type := { mimetype : ContentType.t; size : Z }.

(** Modelled from the spec: the [fileUpload] plugin of
    [~/libs/plugins] is not under src/.  It lets an upload through when
    its content type is one of [allowedExtensions] and its size does
    not exceed [fileSize], and rejects it otherwise. *)
Definition accepts (allowedExtensions : list ContentType.t) (fileSize : Z)
           (u : Upload) : bool :=
  existsb (ContentType.eqb (mimetype u)) allowedExtensions
  && (size u <=? fileSize).

(** The options of the [fileUpload] registrations in a trace. *)
Fixpoint registrations (tr : list Event) : list (list ContentType.t * Z) :=
  match tr with
  | [] => []
  | Register (Plugin.fileUpload exts limit) :: rest =>
      (exts, limit) :: registrations rest
  | _ :: rest => registrations rest
  end.

End FileUpload.

(* ================================================================== *)
(** * CourseController                                                *)
(* ================================================================== *)

(** [APIHandlerResponse]. *)
Module APIHandlerResponse.
Record t : Type := { payload : JsValue; status : Z }.
End APIHandlerResponse.

Module CourseController.

Section WithService.

(** What the service's promise settles to depends on the state of
    the world at the invocation. *)
Variable World : Type.

(** [courseService], used through [findAllByVendor] only. *)
Record CourseService : Type := {
  service_findAllByVendor : World -> Outcome Thrown JsValue
}.

(** The parameters a controller passes to its own [addRoute]. *)
Record ControllerRoute : Type := {
  handler : JsValue -> World -> Outcome Thrown APIHandlerResponse.t;
  method : string;
  path : string
}.

Variable courseService : CourseService.

(** [CoursesApiPath.ROOT], declared outside src/. *)
Variable ROOT : string.

Definition findAllByVendor : World -> Outcome Thrown APIHandlerResponse.t :=
  fun w =>
    match service_findAllByVendor courseService w with
    | Resolved found =>
        Resolved {| APIHandlerResponse.payload := found;
                    APIHandlerResponse.status := HTTPCode.OK |}
    | Rejected t => Rejected t
    end.

(** The route the constructor registers. *)
Definition rootRoute : ControllerRoute :=
  {| handler := fun _options => findAllByVendor;
     method := "GET";
     path := ROOT |}.

End WithService.

End CourseController.

(* ================================================================== *)
(** * user-courses slice: the [add] thunk                             *)
(* ================================================================== *)

Module NotificationMessage.
(** The member the thunk uses; any other message is [OTHER]. *)
Inductive t : Type := COURSE_ADDED | OTHER (text : string).
End NotificationMessage.

Module UserCourses.

(** Calls issued by the thunk, and the settling of the awaited one. *)
Inductive Effect : Type :=
| ApiAdd (requestPayload : JsValue)
| ApiAddSettled (outcome : Outcome Thrown JsValue)
| NotificationSuccess (message : NotificationMessage.t).

(** [extra.userCourseApi], used through [add] only: what the promise
    returned for a payload settles to. *)
Record UserCourseApi : Type := {
  api_add : JsValue -> Outcome Thrown JsValue
}.

(** [await promise]: the settling is recorded; a rejection is thrown. *)
Definition awaited (o : Outcome Thrown JsValue) : Traced Effect JsValue :=
  fun tr => ((tr ++ [ApiAddSettled o])%list, o).

(** The payload creator handed to [createAsyncThunk]. *)
Definition add (userCourseApi : UserCourseApi) (requestPayload : JsValue)
  : Traced Effect JsValue :=
  (call (ApiAdd requestPayload) ;;
   newCourse <- awaited (api_add userCourseApi requestPayload) ;;
   call (NotificationSuccess NotificationMessage.COURSE_ADDED) ;;
   ret newCourse)%traced.

End UserCourses.

(* ================================================================== *)
(** * React components                                                *)
(* ================================================================== *)

(** The identity of a callback passed as a prop. *)
Definition CallbackRef : Type := nat.

(** A call of a callback prop with a numeric argument. *)
Inductive Invocation : Type :=
| Invoke (callback : CallbackRef) (argument : Z).

Module NotificationStatus.
(** The member the component compares with; any other status is
    [OTHER]. *)
Inductive t : Type := READ | OTHER (name : string).

(** [status === NotificationStatus.READ]. *)
Definition isREAD (s : t) : bool :=
  match s with
  | READ => true
  | OTHER _ => false
  end.
End NotificationStatus.

Module NotificationListItem.

(** The fields of [NotificationResponseDto] the component reads. *)
Record NotificationResponseDto : Type := {
  id : Z;
  status : NotificationStatus.t;
  userId : Z;
  userAvatarUrl : option string;
  message : string;
  createdAt : string
}.

(** Keys of the CSS module used on the list item. *)
Inductive Style : Type := notification_style | unread_style.

(** An argument of [getValidClassNames]: a class name, or [false]. *)
Inductive ClassValue : Type :=
| ClassName (s : Style)
| ClassFalse.

(** Modelled from the spec: the helper [getValidClassNames] of
    [~/libs/helpers] is not under src/; it keeps the class names among
    its arguments and drops the falsy ones. *)
Fixpoint getValidClassNames (args : list ClassValue) : list Style :=
  match args with
  | [] => []
  | ClassName s :: rest => s :: getValidClassNames rest
  | ClassFalse :: rest => getValidClassNames rest
  end.

(** One render: the props, and what [useInView] returns. *)
Record Render : Type := {
  notification : NotificationResponseDto;
  onRead : CallbackRef;
  inView : bool
}.

Definition isRead (r : Render) : bool :=
  NotificationStatus.isREAD (status (notification r)).

(** The body of the effect. *)
Definition effect (r : Render) : list Invocation :=
  if negb (isRead r) && inView r
  then [Invoke (onRead r) (id (notification r))]
  else [].

(** The dependency array of the effect. *)
Definition deps (r : Render) : bool * bool * CallbackRef * Z :=
  (inView r, isRead r, onRead r, id (notification r)).

Definition deps_eqb (a b : bool * bool * CallbackRef * Z) : bool :=
  let '(v1, r1, c1, i1) := a in
  let '(v2, r2, c2, i2) := b in
  Bool.eqb v1 v2 && Bool.eqb r1 r2 && Nat.eqb c1 c2 && Z.eqb i1 i2.

(** The [className] of the rendered [<li>]. *)
Definition className (r : Render) : list Style :=
  getValidClassNames
    [ClassName notification_style;
     if negb (isRead r) then ClassName unread_style else ClassFalse].

(** React runs the effect after the first render and after every
    render whose dependencies differ from the previous render's. *)
Fixpoint commits (previous : option (bool * bool * CallbackRef * Z))
         (renders : list Render) : list Invocation :=
  match renders with
  | [] => []
  | r :: rest =>
      let runs :=
        match previous with
        | None => true
        | Some d => negb (deps_eqb d (deps r))
        end in
      ((if runs then effect r else []) ++ commits (Some (deps r)) rest)%list
  end.

(** The invocations over the life of a mounted item. *)
Definition mounted (renders : list Render) : list Invocation :=
  commits None renders.

(** The rendered list item, as far as the component fills it. *)
Record View : Type := {
  li_className : list Style;
  link_to : string;
  image_alt : string;
  image_src : string;
  title : string;
  subtitle : string
}.

Section Rendering.

(** Imported from modules that are not under src/: the default avatar
    asset, the [APIPath.USERS] constant and the date helper. *)
Variable defaultAvatar : string.
Variable USERS : string.
Variable getTimeDistanceFormatDate : string -> string.

(** The JSX the component returns. *)
Definition render (r : Render) : View :=
  let n := notification r in
  {| li_className := className r;
     link_to := USERS ++ "/" ++ Z_toString (userId n);
     image_alt := "avatar";
     image_src :=
       match userAvatarUrl n with
       | Some url => url
       | None => defaultAvatar
       end;
     title := message n;
     subtitle := getTimeDistanceFormatDate (createdAt n) |}.

End Rendering.

End NotificationListItem.

Module FriendsTab.

(** Modelled from the spec: the constant [EMPTY_ARRAY_LENGTH] of
    [~/libs/constants] is not under src/; it is the length of the empty
    array. *)
Definition EMPTY_ARRAY_LENGTH : Z := 0.

(** What [usePagination] returns, as far as the component reads it. *)
Record Pagination : Type := {
  handlePageChange : CallbackRef;
  page : Z;
  pages : JsValue;
  pagesCount : Z
}.

Inductive Element : Type :=
| FriendList (friends : list JsValue)
| PaginationElement (currentPage : Z) (onPageChange : CallbackRef)
                    (pages : JsValue) (pagesCount : Z).

(** A child of the fragment: an element, or [false], which renders
    nothing. *)
Inductive Child : Type :=
| Rendered (e : Element)
| NotRendered.

Definition FriendsTab (items : list JsValue) (pagination : Pagination)
  : list Child :=
  let hasPages := Z.of_nat (List.length items) >? EMPTY_ARRAY_LENGTH in
  [Rendered (FriendList items);
   if hasPages
   then Rendered (PaginationElement (page pagination)
                                    (handlePageChange pagination)
                                    (pages pagination)
                                    (pagesCount pagination))
   else NotRendered].

(** The elements that reach the page. *)
Fixpoint elements (children : list Child) : list Element :=
  match children with
  | [] => []
  | Rendered e :: rest => e :: elements rest
  | NotRendered :: rest => elements rest
  end.

Definition isPagination (e : Element) : bool :=
  match e with
  | PaginationElement _ _ _ _ => true
  | FriendList _ => false
  end.

End FriendsTab.

(* ================================================================== *)
(** * Vocabulary of the statements                                    *)
(* ================================================================== *)

(** The routes registered by a trace of calls, in order. *)
Fixpoint registered (tr : list Event) : list RouteOptions.t :=
  match tr with
  | [] => []
  | Route r :: rest => r :: registered rest
  | _ :: rest => registered rest
  end.

(** A registered route carries what the parameters gave. *)
Definition carries (p : RouteParameters.t) (r : RouteOptions.t) : Prop :=
  RouteOptions.handler r = RouteParameters.handler p /\
  RouteOptions.method r = RouteParameters.method p /\
  RouteOptions.url r = RouteParameters.path p /\
  RouteOptions.preHandler r =
    match RouteParameters.preHandlers p with Some hs => hs | None => [] end /\
  RouteOptions.body (RouteOptions.schema r) =
    match RouteParameters.validation p with
    | Some v => Validation.body v | None => None end /\
  RouteOptions.params (RouteOptions.schema r) =
    match RouteParameters.validation p with
    | Some v => Validation.params v | None => None end /\
  RouteOptions.querystring (RouteOptions.schema r) =
    match RouteParameters.validation p with
    | Some v => Validation.query v | None => None end.

(** A detail of a validation response repeats an issue. *)
Definition repeats (d : ErrorResponse.Detail) (i : Issue.t) : Prop :=
  ErrorResponse.detail_message d = Issue.message i /\
  ErrorResponse.detail_path d = Issue.path i.

(** Some schema of the route's validation object rejects the part of
    the request it is attached to. *)
Definition invalidFor (p : RouteParameters.t) (req : Request.t) : Prop :=
  exists v schema e,
    RouteParameters.validation p = Some v /\
    ((Validation.params v = Some schema /\
      ValidationSchema.parse schema (Request.params req) = Rejected e) \/
     (Validation.body v = Some schema /\
      ValidationSchema.parse schema (Request.body req) = Rejected e) \/
     (Validation.query v = Some schema /\
      ValidationSchema.parse schema (Request.query req) = Rejected e)).

Definition isErrorLog (ev : Event) : bool :=
  match ev with
  | Log (Logger.error _ _) => true
  | _ => false
  end.

Definition isListen (ev : Event) : bool :=
  match ev with
  | Listen _ _ => true
  | _ => false
  end.

(** Every awaited call other than [listen] resolves. *)
Definition bootsUpToListen (rejects : Rejects) : Prop :=
  forall tr ev, isListen ev = false -> rejects tr ev = None.

(** ** The calls of a successful start, phase by phase *)

Section Startup.

Variable WHITE_ROUTES : JsValue.
Variable MAX_FILE_SIZE_IN_MB : Z.
Variable getSizeInBytes : Z -> Z.
Variable moduleDir : string.
Variable pathJoin : string -> string -> string.
Variable this : This.t.

Definition serveCalls : list Event :=
  [Register (Plugin.fastifyStatic "/" (staticPath moduleDir pathJoin));
   SetNotFoundHandler (notFoundHandler moduleDir pathJoin)].

Definition swaggerCalls : list Event :=
  (flat_map
     (fun api =>
        [Log (Logger.info ("Generate swagger documentation for API "
                             ++ Api.version api));
         Register (Plugin.swagger "static"
                                  (Api.generateDoc api (This.title this)))])
     (This.apis this)
   ++ map (fun api => Register (Plugin.swaggerUi (Api.version api ++ "/documentation")))
          (This.apis this))%list.

Definition pluginCalls : list Event :=
  [Register (Plugin.authorization (This.userService this) (This.token this)
                                  WHITE_ROUTES);
   Register (Plugin.fileUpload [ContentType.JPEG; ContentType.PNG]
                               (getSizeInBytes MAX_FILE_SIZE_IN_MB))].

(** What one [addRoute] issues. *)
Definition routeCall (p : RouteParameters.t) : list Event :=
  [Route (routeParameters p);
   Log (Logger.info ("Route: " ++ RouteParameters.method p ++ " "
                               ++ RouteParameters.path p ++ " is registered"))].

Definition routeCalls : list Event :=
  flat_map routeCall (flat_map Api.routes (This.apis this)).

Definition listenCall : Event :=
  Listen (Config.HOST (This.config this)) (Config.PORT (This.config this)).

(** Everything [init] issues before it listens. *)
Definition startup : list Event :=
  ([Log (Logger.info "Application initialization…")]
   ++ serveCalls
   ++ swaggerCalls
   ++ [SetValidatorCompiler validatorCompiler]
   ++ [SetErrorHandler errorHandler]
   ++ pluginCalls
   ++ routeCalls
   ++ [SocketInitialize]
   ++ [InitCrone]
   ++ [DatabaseConnect])%list.

(** The log entry written for a failure of [listen] that is an [Error]. *)
Definition listenFailureLog (e : ErrorObject.t) : Event :=
  Log (Logger.error (ErrorObject.message e)
                    (Some {| Logger.cause := ErrorObject.cause e;
                             Logger.stack := ErrorObject.stack e |})).

End Startup.

(** ** A small server, for running the definitions *)

Module Sample.

Definition WHITE_ROUTES : JsValue := JArr [JStr "/auth/sign-in"].
Definition MAX_FILE_SIZE_IN_MB : Z := 5.
Definition getSizeInBytes (mb : Z) : Z := mb * 1024 * 1024.
Definition moduleDir : string := "/srv/build".
Definition pathJoin (a b : string) : string := a ++ "/" ++ b.

Definition required : ErrorObject.t :=
  {| ErrorObject.message := "Validation failed";
     ErrorObject.issues :=
       Some [{| Issue.message := "Required"; Issue.path := [PKey "vendorId"] |}];
     ErrorObject.status := None;
     ErrorObject.cause := None;
     ErrorObject.stack := None |}.

(** A schema that accepts objects only. *)
Definition objectSchema : ValidationSchema.t :=
  {| ValidationSchema.parse :=
       fun data =>
         match data with
         | JObj _ => Resolved data
         | _ => Rejected required
         end |}.

Definition echo : Handler :=
  fun req reply => Resolved (Reply.send (DataBody (Request.body req)) reply).

Definition addCourse : RouteParameters.t :=
  {| RouteParameters.handler := echo;
     RouteParameters.method := "POST";
     RouteParameters.path := "/api/v1/user-courses";
     RouteParameters.preHandlers := None;
     RouteParameters.validation :=
       Some {| Validation.body := Some objectSchema;
               Validation.params := None;
               Validation.query := None |} |}.

Definition api : Api.t :=
  {| Api.version := "v1";
     Api.generateDoc := fun title => JObj [("title", JStr title)];
     Api.routes := [addCourse] |}.

Definition this : This.t :=
  {| This.apis := [api];
     This.config :=
       {| Config.HOST := "0.0.0.0"; Config.PORT := 3001;
          Config.ENVIRONMENT := "development" |};
     This.title := "Trackmates";
     This.userService := "userService";
     This.token := "token" |}.

(** Every awaited call resolves. *)
Definition allResolve : Rejects := fun _ _ => None.

Definition addressInUse : ErrorObject.t :=
  {| ErrorObject.message := "listen EADDRINUSE";
     ErrorObject.issues := None;
     ErrorObject.status := None;
     ErrorObject.cause := None;
     ErrorObject.stack := Some "at Server.listen" |}.

(** [listen] rejects with [t]; every other awaited call resolves. *)
Definition listenRejects (t : Thrown) : Rejects :=
  fun _ ev => if isListen ev then Some t else None.

Definition init (rejects : Rejects) : Boot unit :=
  init rejects WHITE_ROUTES MAX_FILE_SIZE_IN_MB getSizeInBytes moduleDir pathJoin this.

(** The router of the sample: same method, same URL. *)
Definition matches (r : RouteOptions.t) (req : Request.t) : bool :=
  String.eqb (RouteOptions.method r) (Request.method req)
  && String.eqb (RouteOptions.url r) (Request.url req).

(** Stand-ins for Fastify's built-in handlers. *)
Definition builtin : Fastify.App :=
  {| Fastify.validatorCompiler := fun _ data => Resolved data;
     Fastify.errorHandler :=
       fun _ _ reply => ([], Reply.send (DataBody JNull) (Reply.status 500 reply));
     Fastify.notFoundHandler :=
       fun _ reply => Resolved (Reply.send (DataBody JNull) (Reply.status 404 reply));
     Fastify.routes := [] |}.

(** The sample server once [init] has resolved. *)
Definition app : Fastify.App :=
  Fastify.configure builtin (fst (run (init allResolve))).

Definition post (url : string) (body : JsValue) : Request.t :=
  {| Request.method := "POST"; Request.url := url; Request.body := body;
     Request.params := JUndefined; Request.query := JUndefined |}.

End Sample.

(** A call that installs none of the three handlers. *)
Definition keepsHandlers (ev : Event) : bool :=
  match ev with
  | SetValidatorCompiler _ | SetErrorHandler _ | SetNotFoundHandler _ => false
  | _ => true
  end.

(** ** Samples for the controller, the thunk and the components *)

Module SampleCourses.

Definition courses : JsValue :=
  JArr [JObj [("id", JNum 7); ("title", JStr "Rocq in practice")]].

(** The world is the number of the invocation; the service resolves on
    even invocations and rejects on odd ones. *)
Definition courseService : CourseController.CourseService nat :=
  {| CourseController.service_findAllByVendor :=
       fun n =>
         if Nat.even n then Resolved courses
         else Rejected (ThrownValue (JStr "timeout")) |}.

Definition userCourseApi : UserCourses.UserCourseApi :=
  {| UserCourses.api_add :=
       fun requestPayload =>
         match requestPayload with
         | JObj _ => Resolved (JObj [("id", JNum 7)])
         | _ => Rejected (ThrownValue (JStr "bad request"))
         end |}.

Definition unread : NotificationListItem.NotificationResponseDto :=
  {| NotificationListItem.id := 42;
     NotificationListItem.status := NotificationStatus.OTHER "unread";
     NotificationListItem.userId := 3;
     NotificationListItem.userAvatarUrl := None;
     NotificationListItem.message := "Ann started following you";
     NotificationListItem.createdAt := "2024-03-01T10:00:00Z" |}.

Definition outOfView : NotificationListItem.Render :=
  {| NotificationListItem.notification := unread;
     NotificationListItem.onRead := 1%nat;
     NotificationListItem.inView := false |}.

Definition inView : NotificationListItem.Render :=
  {| NotificationListItem.notification := unread;
     NotificationListItem.onRead := 1%nat;
     NotificationListItem.inView := true |}.

Definition pagination : FriendsTab.Pagination :=
  {| FriendsTab.handlePageChange := 2%nat;
     FriendsTab.page := 1;
     FriendsTab.pages := JArr [JNum 1; JNum 2];
     FriendsTab.pagesCount := 2 |}.

End SampleCourses.

(** ** Vocabulary of the further statements *)

Definition isErrorEntry (e : Logger.Entry) : bool :=
  match e with
  | Logger.error _ _ => true
  | Logger.info _ => false
  end.

Definition isCors (ev : Event) : bool :=
  match ev with
  | Register (Plugin.fastifyCors _ _) => true
  | _ => false
  end.

(** The first awaited call of [initServe]. *)
Definition staticCall (moduleDir : string) (pathJoin : string -> string -> string)
  : Event :=
  Register (Plugin.fastifyStatic "/" (staticPath moduleDir pathJoin)).

(** The two awaited calls of [initPlugins]. *)
Definition authorizationCall (WHITE_ROUTES : JsValue) (this : This.t) : Event :=
  Register (Plugin.authorization (This.userService this) (This.token this)
                                 WHITE_ROUTES).

Definition fileUploadCall (MAX_FILE_SIZE_IN_MB : Z) (getSizeInBytes : Z -> Z)
  : Event :=
  Register (Plugin.fileUpload [ContentType.JPEG; ContentType.PNG]
                              (getSizeInBytes MAX_FILE_SIZE_IN_MB)).

(** The calls every callback of [initMiddlewares] issues before its first
    [await], for all APIs. *)
Definition swaggerFirstCalls (this : This.t) : list Event :=
  flat_map
    (fun api =>
       [Log (Logger.info ("Generate swagger documentation for API "
                            ++ Api.version api));
        swaggerCall this api])
    (This.apis this).

(** The preHandlers a route gets from its parameters. *)
Definition preHandlersOf (p : RouteParameters.t) : list PreHandler :=
  match RouteParameters.preHandlers p with
  | Some hs => hs
  | None => []
  end.

(** A render after which the effect invokes nothing. *)
Definition quiet (r : NotificationListItem.Render) : bool :=
  NotificationListItem.isRead r || negb (NotificationListItem.inView r).

(** [new BaseServerApplication(...)] followed by [init()]. *)
Definition constructAndInit
           (rejects : Rejects) (WHITE_ROUTES : JsValue) (MAX_FILE_SIZE_IN_MB : Z)
           (getSizeInBytes : Z -> Z) (moduleDir : string)
           (pathJoin : string -> string -> string) (this : This.t) : Boot unit :=
  bind constructor
       (fun _ => init rejects WHITE_ROUTES MAX_FILE_SIZE_IN_MB getSizeInBytes
                      moduleDir pathJoin this).

(** A plugin registration; [init] awaits every one it issues. *)
Definition isRegistration (ev : Event) : bool :=
  match ev with
  | Register _ => true
  | _ => false
  end.

(** Every registration among [evs] resolved when it was awaited, that
    is after the calls [pre] and the calls of [evs] before it. *)
Fixpoint registrationsResolve (rejects : Rejects) (pre evs : list Event) : bool :=
  match evs with
  | [] => true
  | ev :: rest =>
      (if isRegistration ev
       then match rejects pre ev with None => true | Some _ => false end
       else true)
      && registrationsResolve rejects (pre ++ [ev]) rest
  end.

(** The registration of the static plugin rejects; every other awaited
    call resolves. *)
Definition staticRejects (t : Thrown) : Rejects :=
  fun _ ev =>
    match ev with
    | Register (Plugin.fastifyStatic _ _) => Some t
    | _ => None
    end.

(** The [swagger] registrations reject; every other awaited call
    resolves. *)
Definition swaggerRejects (t : Thrown) : Rejects :=
  fun _ ev =>
    match ev with
    | Register (Plugin.swagger _ _) => Some t
    | _ => None
    end.

(** Further renders of the sample notification. *)
Module SampleRenders.

(** The item in view, after its text was edited. *)
Definition edited : NotificationListItem.Render :=
  {| NotificationListItem.notification :=
       {| NotificationListItem.id := 42;
          NotificationListItem.status := NotificationStatus.OTHER "unread";
          NotificationListItem.userId := 3;
          NotificationListItem.userAvatarUrl := Some "https://cdn/ann.png";
          NotificationListItem.message := "Ann follows you";
          NotificationListItem.createdAt := "2024-03-01T10:00:00Z" |};
     NotificationListItem.onRead := 1%nat;
     NotificationListItem.inView := true |}.

(** The item in view, once the notification has been marked as read. *)
Definition read : NotificationListItem.Render :=
  {| NotificationListItem.notification :=
       {| NotificationListItem.id := 42;
          NotificationListItem.status := NotificationStatus.READ;
          NotificationListItem.userId := 3;
          NotificationListItem.userAvatarUrl := None;
          NotificationListItem.message := "Ann started following you";
          NotificationListItem.createdAt := "2024-03-01T10:00:00Z" |};
     NotificationListItem.onRead := 1%nat;
     NotificationListItem.inView := true |}.

End SampleRenders.

(* ================================================================== *)
(** * The error handler                                               *)
(* ================================================================== *)

Lemma details_repeat_issues (issues : list Issue.t) :
  Forall2 repeats
    (map (fun issue =>
            {| ErrorResponse.detail_message := Issue.message issue;
               ErrorResponse.detail_path := Issue.path issue |}) issues)
    issues.
Proof.
  induction issues as [| i rest IH]; simpl; constructor.
  - split; reflexivity.
  - exact IH.
Qed.

Lemma initErrorHandler_installs (builtin : Fastify.App) (tr : list Event) :
  Fastify.errorHandler
    (Fastify.configure builtin (fst (initErrorHandler (tr)))) = errorHandler.
Proof.
  unfold initErrorHandler, call, Fastify.configure. simpl.
  rewrite fold_left_app. reflexivity.
Qed.

Example validation_error_is_logged_per_issue :
  fst (errorHandler Sample.required (Sample.post "/" JNull) Reply.fresh)
  = [Logger.error "[Validation Error]: Validation failed" None;
     Logger.error "[vendorId] — Required" None].
Proof. reflexivity. Qed.

Example http_error_is_logged_with_status :
  errorHandler
    {| ErrorObject.message := "Course not found";
       ErrorObject.issues := None;
       ErrorObject.status := Some 404;
       ErrorObject.cause := None;
       ErrorObject.stack := None |}
    (Sample.post "/" JNull) Reply.fresh
  = ([Logger.error "[HTTP Error]: 404 – Course not found" None],
     {| Reply.statusCode := 404;
        Reply.sent :=
          [(404, ErrorBody {| ErrorResponse.details := None;
                              ErrorResponse.errorType := ServerErrorType.COMMON;
                              ErrorResponse.message := "Course not found" |})] |}).
Proof. reflexivity. Qed.

(** The test for [issues] comes first: an error object that has both an
    [issues] field and an [HTTPError] status is answered as a validation
    error. *)
Example issues_are_tested_first :
  map fst
      (Reply.sent
         (snd (errorHandler
                 {| ErrorObject.message := "Unprocessable";
                    ErrorObject.issues := Some [];
                    ErrorObject.status := Some 404;
                    ErrorObject.cause := None;
                    ErrorObject.stack := None |}
                 (Sample.post "/" JNull) Reply.fresh)))
  = [422].
Proof. reflexivity. Qed.

(** C1.  The handler installed by [initErrorHandler] sends exactly one
    response for every error; the response repeats the error's message.
    An error with an [issues] field gets status 422, type VALIDATION and
    one detail per issue; otherwise an [HTTPError] gets its own status
    and type COMMON; otherwise the status is 500 and the type COMMON. *)
Theorem errorHandler_sends_one_response
        (builtin : Fastify.App) (error : ErrorObject.t)
        (request : Request.t) (reply : Reply.t) :
  let installed :=
    Fastify.errorHandler (Fastify.configure builtin (fst (run initErrorHandler))) in
  exists code response,
    Reply.sent (snd (installed error request reply))
      = (Reply.sent reply ++ [(code, ErrorBody response)])%list /\
    ErrorResponse.message response = ErrorObject.message error /\
    match ErrorObject.issues error with
    | Some issues =>
        code = HTTPCode.UNPROCESSED_ENTITY /\ code = 422 /\
        ErrorResponse.errorType response = ServerErrorType.VALIDATION /\
        exists details,
          ErrorResponse.details response = Some details /\
          Forall2 repeats details issues
    | None =>
        match ErrorObject.status error with
        | Some own =>
            code = own /\
            ErrorResponse.errorType response = ServerErrorType.COMMON
        | None =>
            code = HTTPCode.INTERNAL_SERVER_ERROR /\ code = 500 /\
            ErrorResponse.errorType response = ServerErrorType.COMMON
        end
    end.
Proof.
  intros installed. subst installed. unfold run.
  rewrite initErrorHandler_installs.
  unfold errorHandler.
  destruct (ErrorObject.issues error) as [issues |].
  - do 2 eexists. simpl. split; [reflexivity |]. split; [reflexivity |].
    repeat split. eexists. split; [reflexivity |].
    apply details_repeat_issues.
  - destruct (ErrorObject.status error) as [own |].
    + do 2 eexists. simpl. repeat split.
    + do 2 eexists. simpl. repeat split.
Qed.

(* ================================================================== *)
(** * Traces of the bootstrap                                         *)
(* ================================================================== *)

Lemma bind_call {A : Type} (ev : Event) (k : unit -> Boot A) (tr : list Event) :
  bind (call ev) k tr = k tt (tr ++ [ev])%list.
Proof. reflexivity. Qed.

Lemma await_resolves (rejects : Rejects) (ev : Event) (tr : list Event) :
  rejects tr ev = None -> await rejects ev tr = ((tr ++ [ev])%list, Resolved tt).
Proof. intros H. unfold await. rewrite H. reflexivity. Qed.

Lemma addRoute_trace (p : RouteParameters.t) (tr : list Event) :
  addRoute p tr = ((tr ++ routeCall p)%list, Resolved tt).
Proof.
  unfold addRoute, routeCall, bind, call. simpl.
  rewrite <- app_assoc. reflexivity.
Qed.

Lemma addRoutes_trace (ps : list RouteParameters.t) (tr : list Event) :
  addRoutes ps tr = ((tr ++ flat_map routeCall ps)%list, Resolved tt).
Proof.
  unfold addRoutes. revert tr.
  induction ps as [| p rest IH]; intros tr; simpl.
  - rewrite app_nil_r. reflexivity.
  - unfold bind at 1. rewrite addRoute_trace, IH, <- app_assoc. reflexivity.
Qed.

Lemma registered_app (a b : list Event) :
  registered (a ++ b) = (registered a ++ registered b)%list.
Proof.
  induction a as [| ev rest IH]; simpl; [reflexivity |].
  destruct ev; simpl; rewrite ?IH; reflexivity.
Qed.

Lemma registered_routeCalls (ps : list RouteParameters.t) :
  registered (flat_map routeCall ps) = map routeParameters ps.
Proof.
  induction ps as [| p rest IH]; simpl; [reflexivity |].
  rewrite IH. reflexivity.
Qed.

Lemma routeParameters_carries (p : RouteParameters.t) :
  carries p (routeParameters p).
Proof. unfold carries, routeParameters. simpl. repeat split. Qed.

Lemma Forall2_carries_map (ps : list RouteParameters.t) :
  Forall2 carries ps (map routeParameters ps).
Proof.
  induction ps as [| p rest IH]; simpl; constructor.
  - apply routeParameters_carries.
  - exact IH.
Qed.

(** C5.  [addRoutes] issues, in list order, exactly what [addRoute]
    issues for each element; [initRoutes] is [addRoutes] on the
    concatenation of the APIs' route lists, in [apis] order; and the
    routes registered correspond one to one, in order, to the parameters,
    each carrying their method, path, handler, preHandlers (none when
    omitted) and the three schemas of their validation object. *)
Theorem addRoutes_registers_in_order
        (this : This.t) (ps : list RouteParameters.t) (tr : list Event) :
  addRoutes ps tr
    = ((tr ++ flat_map (fun p => fst (run (addRoute p))) ps)%list, Resolved tt) /\
  (exists rs,
      registered (fst (addRoutes ps tr)) = (registered tr ++ rs)%list /\
      Forall2 carries ps rs) /\
  initRoutes this tr = addRoutes (flat_map Api.routes (This.apis this)) tr /\
  (exists rs,
      registered (fst (run (initRoutes this))) = rs /\
      Forall2 carries (flat_map Api.routes (This.apis this)) rs).
Proof.
  split; [| split; [| split]].
  - rewrite addRoutes_trace. reflexivity.
  - exists (map routeParameters ps). split.
    + rewrite addRoutes_trace. simpl.
      rewrite registered_app, registered_routeCalls. reflexivity.
    + apply Forall2_carries_map.
  - reflexivity.
  - eexists. split; [reflexivity |].
    unfold run, initRoutes. rewrite addRoutes_trace. simpl.
    rewrite registered_routeCalls. apply Forall2_carries_map.
Qed.

Section StartupTrace.

Variable rejects : Rejects.
Variable WHITE_ROUTES : JsValue.
Variable MAX_FILE_SIZE_IN_MB : Z.
Variable getSizeInBytes : Z -> Z.
Variable moduleDir : string.
Variable pathJoin : string -> string -> string.
Variable this : This.t.

Hypothesis resolves : bootsUpToListen rejects.

Lemma untilFirstAwait_resolved (apis : list Api.t) (tr : list Event) :
  untilFirstAwait rejects this apis tr
  = ((tr ++ flat_map
             (fun api =>
                [Log (Logger.info ("Generate swagger documentation for API "
                                     ++ Api.version api));
                 Register (Plugin.swagger "static"
                                          (Api.generateDoc api (This.title this)))])
             apis)%list,
     repeat None (List.length apis)).
Proof.
  revert tr. induction apis as [| api rest IH]; intros tr; simpl.
  - rewrite app_nil_r. reflexivity.
  - rewrite IH. rewrite (resolves _ (swaggerCall this api) eq_refl).
    unfold swaggerCall. rewrite <- !app_assoc. reflexivity.
Qed.

Lemma afterFirstAwait_resolved (apis : list Api.t) (tr : list Event) :
  afterFirstAwait rejects (combine apis (repeat None (List.length apis))) tr
  = ((tr ++ map (fun api =>
                   Register (Plugin.swaggerUi (Api.version api ++ "/documentation")))
                apis)%list,
     repeat None (List.length apis)).
Proof.
  revert tr. induction apis as [| api rest IH]; intros tr; simpl.
  - rewrite app_nil_r. reflexivity.
  - rewrite IH. rewrite (resolves _ (swaggerUiCall api) eq_refl).
    unfold swaggerUiCall. rewrite <- app_assoc. reflexivity.
Qed.

Lemma firstRejection_none (n m : nat) :
  firstRejection (repeat None n ++ repeat None m) = None.
Proof.
  induction n as [| n IH]; simpl.
  - induction m as [| m IHm]; simpl; [reflexivity | exact IHm].
  - exact IH.
Qed.

Lemma initMiddlewares_resolved (tr : list Event) :
  initMiddlewares rejects this tr = ((tr ++ swaggerCalls this)%list, Resolved tt).
Proof.
  unfold initMiddlewares, swaggerCalls.
  rewrite untilFirstAwait_resolved, afterFirstAwait_resolved, firstRejection_none.
  rewrite <- app_assoc. reflexivity.
Qed.

Lemma initServe_resolved (tr : list Event) :
  initServe rejects moduleDir pathJoin tr
  = ((tr ++ serveCalls moduleDir pathJoin)%list, Resolved tt).
Proof.
  unfold initServe, serveCalls, bind.
  rewrite await_resolves by (apply resolves; reflexivity).
  unfold call. rewrite <- app_assoc. reflexivity.
Qed.

Lemma initPlugins_resolved (tr : list Event) :
  initPlugins rejects WHITE_ROUTES MAX_FILE_SIZE_IN_MB getSizeInBytes this tr
  = ((tr ++ pluginCalls WHITE_ROUTES MAX_FILE_SIZE_IN_MB getSizeInBytes this)%list,
     Resolved tt).
Proof.
  unfold initPlugins, pluginCalls, bind.
  rewrite await_resolves by (apply resolves; reflexivity).
  rewrite await_resolves by (apply resolves; reflexivity).
  rewrite <- app_assoc. reflexivity.
Qed.

(** The state of [init] when it reaches [listen]. *)
Lemma init_reaches_listen :
  let start :=
    startup WHITE_ROUTES MAX_FILE_SIZE_IN_MB getSizeInBytes moduleDir pathJoin this in
  run (init rejects WHITE_ROUTES MAX_FILE_SIZE_IN_MB getSizeInBytes
            moduleDir pathJoin this)
  = match rejects start (listenCall this) with
    | None =>
        ((start ++ [listenCall this; Log (listening this)])%list, Resolved tt)
    | Some (ThrownError e) =>
        ((start ++ [listenCall this; listenFailureLog e])%list,
         Rejected (ThrownError e))
    | Some (ThrownValue v) =>
        ((start ++ [listenCall this])%list, Rejected (ThrownValue v))
    end.
Proof.
  intros start. unfold run, init.
  rewrite bind_call. unfold bind at 1. rewrite initServe_resolved.
  unfold bind at 1. rewrite initMiddlewares_resolved.
  unfold initValidationCompiler, initErrorHandler.
  rewrite !bind_call.
  unfold bind at 1. rewrite initPlugins_resolved.
  unfold bind at 1. unfold initRoutes. rewrite addRoutes_trace.
  unfold initSocket, initCrons. rewrite !bind_call.
  fold (routeCalls this).
  match goal with
  | |- try_catch _ _ ?t = _ => replace t with start
  end.
  2:{ subst start. unfold startup. rewrite <- !app_assoc. reflexivity. }
  unfold try_catch, bind, await, listenCall.
  destruct (rejects start _) as [[e | v] |]; simpl.
  - unfold call, throw, listenFailureLog. rewrite <- app_assoc. reflexivity.
  - unfold ret, throw. reflexivity.
  - unfold call. rewrite <- app_assoc. reflexivity.
Qed.

End StartupTrace.

(* ================================================================== *)
(** * Start-up order                                                  *)
(* ================================================================== *)


Lemma listenRejects_bootsUpToListen (t : Thrown) :
  bootsUpToListen (Sample.listenRejects t).
Proof.
  intros tr ev H. unfold Sample.listenRejects. rewrite H. reflexivity.
Defined.



(* ================================================================== *)
(** * The application configured by [init]                            *)
(* ================================================================== *)

Lemma configure_app (builtin : Fastify.App) (a b : list Event) :
  Fastify.configure builtin (a ++ b)
  = Fastify.configure (Fastify.configure builtin a) b.
Proof. unfold Fastify.configure. apply fold_left_app. Qed.

Lemma configure_routes (tr : list Event) (builtin : Fastify.App) :
  Fastify.routes (Fastify.configure builtin tr)
  = (Fastify.routes builtin ++ registered tr)%list.
Proof.
  revert builtin. induction tr as [| ev rest IH]; intros builtin.
  - simpl. rewrite app_nil_r. reflexivity.
  - change (Fastify.configure builtin (ev :: rest))
      with (Fastify.configure (Fastify.apply builtin ev) rest).
    rewrite IH. destruct ev; simpl; try reflexivity.
    rewrite <- app_assoc. reflexivity.
Qed.

Lemma configure_keeps (tr : list Event) (app : Fastify.App) :
  forallb keepsHandlers tr = true ->
  Fastify.validatorCompiler (Fastify.configure app tr) = Fastify.validatorCompiler app /\
  Fastify.errorHandler (Fastify.configure app tr) = Fastify.errorHandler app /\
  Fastify.notFoundHandler (Fastify.configure app tr) = Fastify.notFoundHandler app.
Proof.
  revert app. induction tr as [| ev rest IH]; intros app H.
  - repeat split.
  - simpl in H. apply andb_prop in H. destruct H as [Hev Hrest].
    change (Fastify.configure app (ev :: rest))
      with (Fastify.configure (Fastify.apply app ev) rest).
    destruct (IH (Fastify.apply app ev) Hrest) as (Hv & He & Hn).
    rewrite Hv, He, Hn.
    destruct ev; simpl in Hev; try discriminate; repeat split.
Qed.

Lemma swaggerCalls_keep (this : This.t) :
  forallb keepsHandlers (swaggerCalls this) = true.
Proof.
  unfold swaggerCalls. rewrite forallb_app. apply andb_true_intro. split.
  - induction (This.apis this) as [| api rest IH]; simpl; [reflexivity | exact IH].
  - induction (This.apis this) as [| api rest IH]; simpl; [reflexivity | exact IH].
Qed.

Lemma routeCalls_keep (this : This.t) :
  forallb keepsHandlers (routeCalls this) = true.
Proof.
  unfold routeCalls.
  induction (flat_map Api.routes (This.apis this)) as [| p rest IH]; simpl;
    [reflexivity | exact IH].
Qed.

Lemma registered_swaggerCalls (this : This.t) :
  registered (swaggerCalls this) = [].
Proof.
  unfold swaggerCalls. rewrite registered_app.
  assert (H1 : forall apis,
             registered
               (flat_map
                  (fun api =>
                     [Log (Logger.info ("Generate swagger documentation for API "
                                          ++ Api.version api));
                      Register (Plugin.swagger "static"
                                  (Api.generateDoc api (This.title this)))])
                  apis) = []).
  { induction apis as [| api rest IH]; simpl; [reflexivity | exact IH]. }
  assert (H2 : forall apis,
             registered
               (map (fun api =>
                       Register (Plugin.swaggerUi (Api.version api ++ "/documentation")))
                    apis) = []).
  { induction apis as [| api rest IH]; simpl; [reflexivity | exact IH]. }
  rewrite H1, H2. reflexivity.
Qed.

(** What the calls of a start-up leave installed: the three handlers of
    the bootstrap, and the routes of the APIs. *)
Lemma startup_installs
      (WHITE_ROUTES : JsValue) (MAX_FILE_SIZE_IN_MB : Z)
      (getSizeInBytes : Z -> Z) (moduleDir : string)
      (pathJoin : string -> string -> string) (this : This.t)
      (builtin : Fastify.App) (rest : list Event) :
  forallb keepsHandlers rest = true ->
  registered rest = [] ->
  let app :=
    Fastify.configure builtin
      (startup WHITE_ROUTES MAX_FILE_SIZE_IN_MB getSizeInBytes moduleDir pathJoin this
       ++ rest) in
  Fastify.validatorCompiler app = validatorCompiler /\
  Fastify.errorHandler app = errorHandler /\
  Fastify.notFoundHandler app = notFoundHandler moduleDir pathJoin /\
  Fastify.routes app
  = (Fastify.routes builtin
     ++ map routeParameters (flat_map Api.routes (This.apis this)))%list.
Proof.
  intros Hkeep Hreg app. subst app.
  split; [| split; [| split]].
  4:{ rewrite configure_routes. f_equal.
      unfold startup. rewrite !registered_app, Hreg.
      rewrite registered_swaggerCalls. unfold routeCalls.
      rewrite registered_routeCalls. simpl. rewrite ?app_nil_r. reflexivity. }
  all: unfold startup; rewrite <- !app_assoc.
  all: rewrite (configure_app _ [_]), (configure_app _ (serveCalls _ _)),
         (configure_app _ (swaggerCalls _)), (configure_app _ [_]),
         (configure_app _ [_]).
  all: match goal with
       | |- context [Fastify.configure ?a (pluginCalls ?w ?m ?g ?t ++ ?r)] =>
           destruct (configure_keeps (pluginCalls w m g t ++ r) a) as (Hv & He & Hn)
       end.
  all: try (rewrite !forallb_app, routeCalls_keep, Hkeep; reflexivity).
  - rewrite Hv. reflexivity.
  - rewrite He. reflexivity.
  - rewrite Hn.
    change (Fastify.notFoundHandler
              (Fastify.configure
                 (Fastify.configure builtin
                    [Log (Logger.info "Application initialization…")])
                 (serveCalls moduleDir pathJoin)))
      with (notFoundHandler moduleDir pathJoin) in *.
    match goal with
    | |- Fastify.notFoundHandler
           (Fastify.configure (Fastify.configure ?x [_]) [_]) = _ =>
        change (Fastify.notFoundHandler x = notFoundHandler moduleDir pathJoin)
    end.
    destruct (configure_keeps (swaggerCalls this)
                (Fastify.configure
                   (Fastify.configure builtin
                      [Log (Logger.info "Application initialization…")])
                   (serveCalls moduleDir pathJoin))
                (swaggerCalls_keep this)) as (_ & _ & Hn').
    rewrite Hn'. reflexivity.
Qed.

(** When [init] resolves, the application has the bootstrap's validator
    compiler, error handler and not-found handler, and the APIs' routes. *)
Lemma init_installs
      (rejects : Rejects) (WHITE_ROUTES : JsValue) (MAX_FILE_SIZE_IN_MB : Z)
      (getSizeInBytes : Z -> Z) (moduleDir : string)
      (pathJoin : string -> string -> string) (this : This.t)
      (builtin : Fastify.App) :
  (forall tr ev, rejects tr ev = None) ->
  let result :=
    run (init rejects WHITE_ROUTES MAX_FILE_SIZE_IN_MB getSizeInBytes
              moduleDir pathJoin this) in
  let app := Fastify.configure builtin (fst result) in
  snd result = Resolved tt /\
  Fastify.validatorCompiler app = validatorCompiler /\
  Fastify.errorHandler app = errorHandler /\
  Fastify.notFoundHandler app = notFoundHandler moduleDir pathJoin /\
  Fastify.routes app
  = (Fastify.routes builtin
     ++ map routeParameters (flat_map Api.routes (This.apis this)))%list.
Proof.
  intros Hall result app. subst app result.
  rewrite (init_reaches_listen rejects WHITE_ROUTES MAX_FILE_SIZE_IN_MB
             getSizeInBytes moduleDir pathJoin this (fun tr ev _ => Hall tr ev)).
  rewrite Hall. simpl fst. simpl snd.
  split; [reflexivity |].
  apply startup_installs; reflexivity.
Qed.

(* ================================================================== *)
(** * Validation                                                      *)
(* ================================================================== *)

Lemma validatePart_compiled (app : Fastify.App) (schema : ValidationSchema.t)
      (data : JsValue) :
  Fastify.validatorCompiler app = validatorCompiler ->
  Fastify.validatePart app (Some schema) data
  = match ValidationSchema.parse schema data with
    | Resolved _ => Resolved tt
    | Rejected e => Rejected e
    end.
Proof.
  intros H. unfold Fastify.validatePart. rewrite H. reflexivity.
Qed.

Lemma validate_rejects (app : Fastify.App) (p : RouteParameters.t)
      (req : Request.t) :
  Fastify.validatorCompiler app = validatorCompiler ->
  invalidFor p req ->
  exists e, Fastify.validate app (routeParameters p) req = Rejected e.
Proof.
  intros Hvc (v & schema & e & Hv & Hpart).
  unfold Fastify.validate, routeParameters. simpl. rewrite Hv.
  destruct Hpart as [[Hs Hr] | [[Hs Hr] | [Hs Hr]]].
  - rewrite Hs, (validatePart_compiled _ _ _ Hvc), Hr. eauto.
  - destruct (Fastify.validatePart app (Validation.params v) (Request.params req))
      as [[] | e1]; [| eauto].
    rewrite Hs, (validatePart_compiled _ _ _ Hvc), Hr. eauto.
  - destruct (Fastify.validatePart app (Validation.params v) (Request.params req))
      as [[] | e1]; [| eauto].
    destruct (Fastify.validatePart app (Validation.body v) (Request.body req))
      as [[] | e2]; [| eauto].
    rewrite Hs, (validatePart_compiled _ _ _ Hvc), Hr. eauto.
Qed.

Lemma onError_stages (app : Fastify.App) (e : ErrorObject.t) (req : Request.t)
      (passed : list Fastify.Stage) :
  Fastify.stages (Fastify.onError app e req passed)
  = (passed ++ [Fastify.ErrorHandling])%list.
Proof.
  unfold Fastify.onError.
  destruct (Fastify.errorHandler app e req Reply.fresh). reflexivity.
Qed.

(** C3.  On the server started by [init], the validator compiled for a
    schema returns [schema.parse(data)], so it throws exactly when the
    schema rejects the data; and a request routed to a route built by
    [addRoute] whose validation object rejects it ends in the error
    handler without reaching the route handler. *)
Theorem compiled_validator_is_parse
        (rejects : Rejects) (WHITE_ROUTES : JsValue) (MAX_FILE_SIZE_IN_MB : Z)
        (getSizeInBytes : Z -> Z) (moduleDir : string)
        (pathJoin : string -> string -> string) (this : This.t)
        (builtin : Fastify.App)
        (resolves : forall tr ev, rejects tr ev = None) :
  let app :=
    Fastify.configure builtin
      (fst (run (init rejects WHITE_ROUTES MAX_FILE_SIZE_IN_MB getSizeInBytes
                      moduleDir pathJoin this))) in
  (forall schema data,
      Fastify.validatorCompiler app schema data
      = ValidationSchema.parse schema data) /\
  (forall schema data,
      (exists e, Fastify.validatorCompiler app schema data = Rejected e) <->
      (exists e, ValidationSchema.parse schema data = Rejected e)) /\
  (forall matches p req,
      Fastify.lookup matches app req = Some (routeParameters p) ->
      invalidFor p req ->
      let exchange := Fastify.handleRequest matches app req in
      ~ In Fastify.RouteHandler (Fastify.stages exchange) /\
      In Fastify.ErrorHandling (Fastify.stages exchange)).
Proof.
  intros app.
  destruct (init_installs rejects WHITE_ROUTES MAX_FILE_SIZE_IN_MB getSizeInBytes
              moduleDir pathJoin this builtin resolves) as (_ & Hvc & _).
  fold app in Hvc.
  split; [| split].
  - intros schema data. rewrite Hvc. reflexivity.
  - intros schema data. rewrite Hvc. unfold validatorCompiler. tauto.
  - intros matches p req Hroute Hinvalid exchange. subst exchange.
    unfold Fastify.handleRequest. rewrite Hroute.
    destruct (validate_rejects app p req Hvc Hinvalid) as [e He].
    rewrite He, onError_stages. simpl. split.
    + intros [H | [H | []]]; discriminate.
    + right. left. reflexivity.
Qed.

Example valid_request_reaches_handler :
  Fastify.stages
    (Fastify.handleRequest Sample.matches Sample.app
       (Sample.post "/api/v1/user-courses" (JObj [("vendorId", JNum 1)])))
  = [Fastify.Validation; Fastify.PreHandlers; Fastify.RouteHandler].
Proof. vm_compute. reflexivity. Qed.

Example invalid_request_gets_422 :
  map fst
      (Reply.sent
         (Fastify.reply
            (Fastify.handleRequest Sample.matches Sample.app
               (Sample.post "/api/v1/user-courses" (JStr "oops")))))
  = [422].
Proof. vm_compute. reflexivity. Qed.

Lemma compiled_validator_is_parse_witness :
  let req := Sample.post "/api/v1/user-courses" (JStr "oops") in
  ~ In Fastify.RouteHandler
       (Fastify.stages (Fastify.handleRequest Sample.matches Sample.app req)) /\
  In Fastify.ErrorHandling
     (Fastify.stages (Fastify.handleRequest Sample.matches Sample.app req)).
Proof.
  intros req.
  destruct (compiled_validator_is_parse
              Sample.allResolve Sample.WHITE_ROUTES Sample.MAX_FILE_SIZE_IN_MB
              Sample.getSizeInBytes Sample.moduleDir Sample.pathJoin Sample.this
              Sample.builtin (fun _ _ => eq_refl)) as (_ & _ & H).
  apply (H Sample.matches Sample.addCourse req).
  - vm_compute. reflexivity.
  - exists {| Validation.body := Some Sample.objectSchema;
              Validation.params := None;
              Validation.query := None |},
           Sample.objectSchema, Sample.required.
    split; [reflexivity |].
    right. left. split; reflexivity.
Defined.

(* ================================================================== *)
(** * Requests without a route                                        *)
(* ================================================================== *)

(** C9.  On the server started by [init], a request that matches no
    registered route is answered by the not-found handler with the file
    [index.html] of the static directory, and with nothing else: no error
    payload is sent and the error handler is not run. *)
Theorem unmatched_request_gets_index
        (rejects : Rejects) (WHITE_ROUTES : JsValue) (MAX_FILE_SIZE_IN_MB : Z)
        (getSizeInBytes : Z -> Z) (moduleDir : string)
        (pathJoin : string -> string -> string) (this : This.t)
        (builtin : Fastify.App)
        (resolves : forall tr ev, rejects tr ev = None) :
  let app :=
    Fastify.configure builtin
      (fst (run (init rejects WHITE_ROUTES MAX_FILE_SIZE_IN_MB getSizeInBytes
                      moduleDir pathJoin this))) in
  forall matches req,
    Fastify.lookup matches app req = None ->
    let exchange := Fastify.handleRequest matches app req in
    (exists code,
        Reply.sent (Fastify.reply exchange)
        = [(code, FileBody "index.html" (staticPath moduleDir pathJoin))]) /\
    Fastify.stages exchange = [Fastify.NotFound] /\
    Fastify.logs exchange = [].
Proof.
  intros app matches req Hnone exchange. subst exchange.
  destruct (init_installs rejects WHITE_ROUTES MAX_FILE_SIZE_IN_MB getSizeInBytes
              moduleDir pathJoin this builtin resolves) as (_ & _ & _ & Hnf & _).
  fold app in Hnf.
  unfold Fastify.handleRequest. rewrite Hnone, Hnf.
  unfold notFoundHandler. simpl.
  split; [eexists; reflexivity | split; reflexivity].
Qed.

Lemma unmatched_request_gets_index_witness :
  let exchange :=
    Fastify.handleRequest Sample.matches Sample.app
      {| Request.method := "GET"; Request.url := "/friends";
         Request.body := JUndefined; Request.params := JUndefined;
         Request.query := JUndefined |} in
  (exists code,
      Reply.sent (Fastify.reply exchange)
      = [(code, FileBody "index.html" "/srv/build/../../../../public")]) /\
  Fastify.stages exchange = [Fastify.NotFound] /\
  Fastify.logs exchange = [].
Proof.
  apply (unmatched_request_gets_index
           Sample.allResolve Sample.WHITE_ROUTES Sample.MAX_FILE_SIZE_IN_MB
           Sample.getSizeInBytes Sample.moduleDir Sample.pathJoin Sample.this
           Sample.builtin (fun _ _ => eq_refl) Sample.matches).
  vm_compute. reflexivity.
Defined.

(* ================================================================== *)
(** * File upload                                                     *)
(* ================================================================== *)

(** C7.  When the registration of the authorization plugin resolves,
    [initPlugins] registers the file-upload plugin once, with allowed
    extensions JPEG and PNG and the size limit
    [getSizeInBytes MAX_FILE_SIZE_IN_MB]; with these options the plugin
    rejects every upload of another content type and every upload larger
    than the limit. *)
Theorem fileUpload_registered_with_limits
        (rejects : Rejects) (WHITE_ROUTES : JsValue) (MAX_FILE_SIZE_IN_MB : Z)
        (getSizeInBytes : Z -> Z) (this : This.t)
        (authorized :
           rejects [] (Register (Plugin.authorization (This.userService this)
                                   (This.token this) WHITE_ROUTES)) = None) :
  FileUpload.registrations
    (fst (run (initPlugins rejects WHITE_ROUTES MAX_FILE_SIZE_IN_MB
                           getSizeInBytes this)))
  = [([ContentType.JPEG; ContentType.PNG], getSizeInBytes MAX_FILE_SIZE_IN_MB)] /\
  forall u : FileUpload.Upload,
    (FileUpload.mimetype u <> ContentType.JPEG /\
     FileUpload.mimetype u <> ContentType.PNG) \/
    FileUpload.size u > getSizeInBytes MAX_FILE_SIZE_IN_MB ->
    FileUpload.accepts [ContentType.JPEG; ContentType.PNG]
                       (getSizeInBytes MAX_FILE_SIZE_IN_MB) u = false.
Proof.
  split.
  - unfold run, initPlugins, bind. rewrite (await_resolves _ _ _ authorized).
    unfold await. simpl.
    match goal with
    | |- context [match rejects ?tr ?ev with _ => _ end] =>
        destruct (rejects tr ev); reflexivity
    end.
  - intros u [[Hjpeg Hpng] | Hsize]; unfold FileUpload.accepts.
    + destruct (FileUpload.mimetype u); simpl; congruence.
    + apply andb_false_intro2. apply Z.leb_gt. lia.
Qed.

Lemma fileUpload_registered_with_limits_witness :
  FileUpload.registrations
    (fst (run (initPlugins Sample.allResolve Sample.WHITE_ROUTES
                           Sample.MAX_FILE_SIZE_IN_MB Sample.getSizeInBytes
                           Sample.this)))
  = [([ContentType.JPEG; ContentType.PNG], 5242880)] /\
  FileUpload.accepts [ContentType.JPEG; ContentType.PNG] 5242880
    {| FileUpload.mimetype := ContentType.OTHER "image/gif";
       FileUpload.size := 1024 |} = false.
Proof.
  destruct (fileUpload_registered_with_limits
              Sample.allResolve Sample.WHITE_ROUTES Sample.MAX_FILE_SIZE_IN_MB
              Sample.getSizeInBytes Sample.this eq_refl) as [Hreg Hrej].
  split.
  - exact Hreg.
  - apply (Hrej {| FileUpload.mimetype := ContentType.OTHER "image/gif";
                   FileUpload.size := 1024 |}).
    left. split; discriminate.
Defined.

(* ================================================================== *)
(** * CourseController                                                *)
(* ================================================================== *)

(** C2.  The route the controller registers is the GET root route; at
    every invocation where the service's promise resolves, its handler
    resolves to status [HTTPCode.OK] and, as payload, the very value the
    service resolved to. *)
Theorem findAllByVendor_returns_service_result
        (World : Type) (courseService : CourseController.CourseService World)
        (ROOT : string) (options : JsValue) (w : World) (found : JsValue)
        (resolved :
           CourseController.service_findAllByVendor World courseService w
           = Resolved found) :
  let route := CourseController.rootRoute World courseService ROOT in
  CourseController.method World route = "GET" /\
  CourseController.path World route = ROOT /\
  CourseController.handler World route options w
  = Resolved {| APIHandlerResponse.payload := found;
                APIHandlerResponse.status := HTTPCode.OK |}.
Proof.
  simpl. unfold CourseController.findAllByVendor. rewrite resolved.
  repeat split.
Qed.

Lemma findAllByVendor_returns_service_result_witness :
  CourseController.handler nat
    (CourseController.rootRoute nat SampleCourses.courseService "/") JUndefined 0%nat
  = Resolved {| APIHandlerResponse.payload := SampleCourses.courses;
                APIHandlerResponse.status := 200 |}.
Proof.
  apply (findAllByVendor_returns_service_result
           nat SampleCourses.courseService "/" JUndefined 0%nat
           SampleCourses.courses eq_refl).
Defined.

Example findAllByVendor_rejects_with_service :
  CourseController.findAllByVendor nat SampleCourses.courseService 1%nat
  = Rejected (ThrownValue (JStr "timeout")).
Proof. reflexivity. Qed.

(* ================================================================== *)
(** * The [add] thunk                                                 *)
(* ================================================================== *)

(** C6.  For every payload: when [userCourseApi.add] resolves, the thunk
    resolves to the course it returned, after calling the API, seeing it
    resolve and then showing COURSE_ADDED; a success notification in the
    trace always comes after the API call has resolved; when the API
    call rejects, the thunk rejects with the same value and shows no
    success notification. *)
Theorem add_resolves_to_api_course
        (userCourseApi : UserCourses.UserCourseApi) (requestPayload : JsValue) :
  let result := run (UserCourses.add userCourseApi requestPayload) in
  match UserCourses.api_add userCourseApi requestPayload with
  | Resolved course =>
      result
      = ([UserCourses.ApiAdd requestPayload;
          UserCourses.ApiAddSettled (Resolved course);
          UserCourses.NotificationSuccess NotificationMessage.COURSE_ADDED],
         Resolved course)
  | Rejected t =>
      snd result = Rejected t /\
      forall message, ~ In (UserCourses.NotificationSuccess message) (fst result)
  end /\
  (forall before message after,
      fst result = (before ++ UserCourses.NotificationSuccess message :: after)%list ->
      message = NotificationMessage.COURSE_ADDED /\
      exists course,
        UserCourses.api_add userCourseApi requestPayload = Resolved course /\
        In (UserCourses.ApiAddSettled (Resolved course)) before).
Proof.
  intros result. subst result.
  unfold run, UserCourses.add, UserCourses.awaited, bind, call, ret. simpl.
  destruct (UserCourses.api_add userCourseApi requestPayload) as [course | t];
    simpl; split.
  - reflexivity.
  - intros before message after H.
    destruct before as [| e1 [| e2 [| e3 rest]]]; simpl in H;
      try discriminate.
    + injection H as H1 H2 H3. subst. split; [reflexivity |].
      exists course. split; [reflexivity |]. right. left. reflexivity.
    + injection H as _ _ _ H. destruct rest; discriminate.
  - split; [reflexivity |].
    intros message [H | [H | []]]; discriminate.
  - intros before message after H.
    destruct before as [| e1 [| e2 rest]]; simpl in H; try discriminate.
    injection H as _ _ H. destruct rest; discriminate.
Qed.

Lemma add_resolves_to_api_course_witness :
  exists course,
    UserCourses.api_add SampleCourses.userCourseApi (JObj [("courseId", JNum 7)])
    = Resolved course /\
    In (UserCourses.ApiAddSettled (Resolved course))
       [UserCourses.ApiAdd (JObj [("courseId", JNum 7)]);
        UserCourses.ApiAddSettled (Resolved (JObj [("id", JNum 7)]))].
Proof.
  destruct (add_resolves_to_api_course
              SampleCourses.userCourseApi (JObj [("courseId", JNum 7)]))
    as [_ Hafter].
  destruct (Hafter
              [UserCourses.ApiAdd (JObj [("courseId", JNum 7)]);
               UserCourses.ApiAddSettled (Resolved (JObj [("id", JNum 7)]))]
              NotificationMessage.COURSE_ADDED [] eq_refl)
    as [_ Hcourse].
  exact Hcourse.
Defined.

Example add_rejected_shows_nothing :
  run (UserCourses.add SampleCourses.userCourseApi JNull)
  = ([UserCourses.ApiAdd JNull;
      UserCourses.ApiAddSettled (Rejected (ThrownValue (JStr "bad request")))],
     Rejected (ThrownValue (JStr "bad request"))).
Proof. reflexivity. Qed.

(* ================================================================== *)
(** * NotificationListItem                                            *)
(* ================================================================== *)

Lemma isRead_iff (r : NotificationListItem.Render) :
  NotificationListItem.isRead r = true <->
  NotificationListItem.status (NotificationListItem.notification r)
  = NotificationStatus.READ.
Proof.
  unfold NotificationListItem.isRead.
  destruct (NotificationListItem.status (NotificationListItem.notification r));
    simpl; split; intros H; try reflexivity; discriminate.
Qed.

Lemma effect_sound (r : NotificationListItem.Render) (c : Invocation) :
  In c (NotificationListItem.effect r) ->
  c = Invoke (NotificationListItem.onRead r)
             (NotificationListItem.id (NotificationListItem.notification r)) /\
  NotificationListItem.isRead r = false /\
  NotificationListItem.inView r = true.
Proof.
  unfold NotificationListItem.effect.
  destruct (NotificationListItem.isRead r), (NotificationListItem.inView r);
    simpl; intros H; try contradiction.
  destruct H as [H | []]. subst. repeat split.
Qed.

Lemma commits_sound (renders : list NotificationListItem.Render)
      (previous : option (bool * bool * CallbackRef * Z)) (c : Invocation) :
  In c (NotificationListItem.commits previous renders) ->
  exists r,
    In r renders /\
    c = Invoke (NotificationListItem.onRead r)
               (NotificationListItem.id (NotificationListItem.notification r)) /\
    NotificationListItem.isRead r = false /\
    NotificationListItem.inView r = true.
Proof.
  revert previous. induction renders as [| r rest IH]; intros previous H.
  - contradiction.
  - simpl in H. apply in_app_or in H. destruct H as [H | H].
    + exists r. split; [left; reflexivity |].
      destruct (match previous with
                | Some d => negb (NotificationListItem.deps_eqb d
                                    (NotificationListItem.deps r))
                | None => true
                end); [| contradiction].
      apply effect_sound. exact H.
    + destruct (IH _ H) as (r' & Hin & Hrest).
      exists r'. split; [right; exact Hin | exact Hrest].
Qed.

Lemma commits_last (before : list NotificationListItem.Render)
      (rp r : NotificationListItem.Render)
      (previous : option (bool * bool * CallbackRef * Z)) :
  NotificationListItem.commits previous (before ++ [rp; r])
  = (NotificationListItem.commits previous (before ++ [rp])
     ++ NotificationListItem.commits (Some (NotificationListItem.deps rp)) [r])%list.
Proof.
  revert previous. induction before as [| r0 rest IH]; intros previous.
  - simpl. rewrite !app_nil_r. reflexivity.
  - simpl. rewrite IH, app_assoc. reflexivity.
Qed.

Lemma unread_isRead (r : NotificationListItem.Render) :
  NotificationListItem.status (NotificationListItem.notification r)
  <> NotificationStatus.READ ->
  NotificationListItem.isRead r = false.
Proof.
  intros H. destruct (NotificationListItem.isRead r) eqn:E; [| reflexivity].
  apply isRead_iff in E. contradiction.
Qed.

(** C8.  The effect invokes [onRead] with the notification's id when the
    status is not READ and the item is in view, and invokes nothing
    otherwise.  Over the life of the item: every invocation comes from a
    render with a status other than READ and the item in view; the first
    render of an unread item in view invokes [onRead]; so does a render
    of an unread item in view that follows a render where the item was
    out of view, or the status was READ, or the callback or the id was
    another one; a render that changes none of these four invokes
    nothing; while the status is READ, [onRead] is never invoked and the
    list item does not get the [unread] class. *)
Theorem onRead_when_unread_in_view :
  (forall r,
      NotificationListItem.effect r
      = if NotificationStatus.isREAD
             (NotificationListItem.status (NotificationListItem.notification r))
        then []
        else if NotificationListItem.inView r
             then [Invoke (NotificationListItem.onRead r)
                          (NotificationListItem.id
                             (NotificationListItem.notification r))]
             else []) /\
  (forall renders c,
      In c (NotificationListItem.mounted renders) ->
      exists r,
        In r renders /\
        c = Invoke (NotificationListItem.onRead r)
                   (NotificationListItem.id (NotificationListItem.notification r)) /\
        NotificationListItem.status (NotificationListItem.notification r)
        <> NotificationStatus.READ /\
        NotificationListItem.inView r = true) /\
  (forall r,
      NotificationListItem.status (NotificationListItem.notification r)
      <> NotificationStatus.READ ->
      NotificationListItem.inView r = true ->
      NotificationListItem.mounted [r]
      = [Invoke (NotificationListItem.onRead r)
                (NotificationListItem.id (NotificationListItem.notification r))]) /\
  (forall before rp r,
      NotificationListItem.status (NotificationListItem.notification r)
      <> NotificationStatus.READ ->
      NotificationListItem.inView r = true ->
      NotificationListItem.inView rp = false \/
      NotificationListItem.status (NotificationListItem.notification rp)
      = NotificationStatus.READ \/
      NotificationListItem.onRead rp <> NotificationListItem.onRead r \/
      NotificationListItem.id (NotificationListItem.notification rp)
      <> NotificationListItem.id (NotificationListItem.notification r) ->
      NotificationListItem.mounted (before ++ [rp; r])
      = (NotificationListItem.mounted (before ++ [rp])
         ++ [Invoke (NotificationListItem.onRead r)
                    (NotificationListItem.id
                       (NotificationListItem.notification r))])%list) /\
  (forall before rp r,
      NotificationListItem.inView rp = NotificationListItem.inView r ->
      NotificationStatus.isREAD
        (NotificationListItem.status (NotificationListItem.notification rp))
      = NotificationStatus.isREAD
          (NotificationListItem.status (NotificationListItem.notification r)) ->
      NotificationListItem.onRead rp = NotificationListItem.onRead r ->
      NotificationListItem.id (NotificationListItem.notification rp)
      = NotificationListItem.id (NotificationListItem.notification r) ->
      NotificationListItem.mounted (before ++ [rp; r])
      = NotificationListItem.mounted (before ++ [rp])) /\
  (forall renders,
      Forall (fun r =>
                NotificationListItem.status (NotificationListItem.notification r)
                = NotificationStatus.READ) renders ->
      NotificationListItem.mounted renders = [] /\
      Forall (fun r =>
                ~ In NotificationListItem.unread_style
                     (NotificationListItem.className r)) renders).
Proof.
  split; [| split; [| split; [| split; [| split]]]].
  - intros r. unfold NotificationListItem.effect, NotificationListItem.isRead.
    destruct (NotificationStatus.isREAD _), (NotificationListItem.inView r);
      reflexivity.
  - intros renders c H.
    destruct (commits_sound renders None c H) as (r & Hin & Hc & Hread & Hview).
    exists r. repeat split; try assumption.
    intros Hstatus. apply isRead_iff in Hstatus. congruence.
  - intros r Hstatus Hview.
    unfold NotificationListItem.mounted. simpl.
    unfold NotificationListItem.effect.
    rewrite (unread_isRead r Hstatus), Hview. reflexivity.
  - intros before rp r Hstatus Hview Hchanged.
    unfold NotificationListItem.mounted. rewrite commits_last. f_equal.
    pose proof (unread_isRead r Hstatus) as Hread.
    assert (Hdiff : NotificationListItem.deps_eqb
                      (NotificationListItem.deps rp) (NotificationListItem.deps r)
                    = false).
    { unfold NotificationListItem.deps_eqb, NotificationListItem.deps.
      rewrite Hread, Hview.
      destruct Hchanged as [Hv | [Hs | [Hc | Hi]]].
      - rewrite Hv. reflexivity.
      - apply isRead_iff in Hs. rewrite Hs.
        destruct (NotificationListItem.inView rp); reflexivity.
      - apply Nat.eqb_neq in Hc. rewrite Hc.
        destruct (Bool.eqb _ _), (Bool.eqb _ _); reflexivity.
      - apply Z.eqb_neq in Hi. rewrite Hi.
        destruct (Bool.eqb _ _), (Bool.eqb _ _), (Nat.eqb _ _); reflexivity. }
    cbn [NotificationListItem.commits]. rewrite Hdiff. simpl.
    unfold NotificationListItem.effect. rewrite Hread, Hview. reflexivity.
  - intros before rp r Hv Hs Hc Hi.
    unfold NotificationListItem.mounted. rewrite commits_last.
    assert (Hsame : NotificationListItem.deps_eqb
                      (NotificationListItem.deps rp) (NotificationListItem.deps r)
                    = true).
    { unfold NotificationListItem.deps_eqb, NotificationListItem.deps,
        NotificationListItem.isRead.
      rewrite Hv, Hs, Hc, Hi.
      rewrite !Bool.eqb_reflx, Nat.eqb_refl, Z.eqb_refl. reflexivity. }
    cbn [NotificationListItem.commits]. rewrite Hsame. simpl.
    rewrite app_nil_r. reflexivity.
  - intros renders Hall. split.
    + destruct (NotificationListItem.mounted renders) as [| c rest] eqn:E;
        [reflexivity |].
      assert (Hin : In c (NotificationListItem.mounted renders))
        by (rewrite E; left; reflexivity).
      destruct (commits_sound renders None c Hin) as (r & Hr & _ & Hread & _).
      rewrite Forall_forall in Hall. apply Hall in Hr.
      apply isRead_iff in Hr. congruence.
    + induction Hall as [| r rest Hr _ IH]; constructor; [| exact IH].
      apply isRead_iff in Hr.
      unfold NotificationListItem.className. rewrite Hr. simpl.
      intros [H | []]. discriminate.
Qed.

Lemma onRead_when_unread_in_view_witness :
  NotificationListItem.mounted [SampleCourses.outOfView; SampleCourses.inView]
  = [Invoke 1%nat 42].
Proof.
  destruct onRead_when_unread_in_view as (_ & _ & _ & Hchanged & _).
  apply (Hchanged [] SampleCourses.outOfView SampleCourses.inView).
  - discriminate.
  - reflexivity.
  - left. reflexivity.
Defined.

(* ================================================================== *)
(** * FriendsTab                                                      *)
(* ================================================================== *)

(** C10.  [FriendsTab] renders the [Pagination] element exactly when
    [items] is non-empty, which is when its length exceeds
    [EMPTY_ARRAY_LENGTH]; for an empty [items] only the [FriendList] is
    rendered, whatever the pagination object holds. *)
Theorem pagination_iff_items_nonempty
        (items : list JsValue) (pagination : FriendsTab.Pagination) :
  let rendered := FriendsTab.elements (FriendsTab.FriendsTab items pagination) in
  (existsb FriendsTab.isPagination rendered = true <-> items <> []) /\
  (items <> [] <-> Z.of_nat (List.length items) > FriendsTab.EMPTY_ARRAY_LENGTH) /\
  (items = [] -> rendered = [FriendsTab.FriendList []]) /\
  (items <> [] ->
   rendered
   = [FriendsTab.FriendList items;
      FriendsTab.PaginationElement
        (FriendsTab.page pagination) (FriendsTab.handlePageChange pagination)
        (FriendsTab.pages pagination) (FriendsTab.pagesCount pagination)]).
Proof.
  intros rendered. subst rendered. unfold FriendsTab.FriendsTab.
  destruct items as [| item rest].
  - simpl. repeat split; try congruence; try discriminate;
      try (unfold FriendsTab.EMPTY_ARRAY_LENGTH; simpl; lia).
  - assert (H : (Z.of_nat (List.length (item :: rest))
                 >? FriendsTab.EMPTY_ARRAY_LENGTH) = true).
    { unfold FriendsTab.EMPTY_ARRAY_LENGTH. apply Z.gtb_gt.
      simpl List.length. lia. }
    rewrite H. simpl FriendsTab.elements. simpl existsb.
    repeat split; try congruence; try discriminate;
      try (unfold FriendsTab.EMPTY_ARRAY_LENGTH; simpl List.length; lia).
Qed.

Lemma pagination_iff_items_nonempty_witness :
  FriendsTab.elements (FriendsTab.FriendsTab [] SampleCourses.pagination)
  = [FriendsTab.FriendList []].
Proof.
  destruct (pagination_iff_items_nonempty [] SampleCourses.pagination)
    as (_ & _ & Hempty & _).
  exact (Hempty eq_refl).
Defined.

(* ================================================================== *)
(** * The bootstrap when awaited calls reject                         *)
(* ================================================================== *)

Section Failures.

Variable rejects : Rejects.
Variable WHITE_ROUTES : JsValue.
Variable MAX_FILE_SIZE_IN_MB : Z.
Variable getSizeInBytes : Z -> Z.
Variable moduleDir : string.
Variable pathJoin : string -> string -> string.
Variable this : This.t.

Lemma untilFirstAwait_trace (apis : list Api.t) (tr : list Event) :
  exists first,
    untilFirstAwait rejects this apis tr
    = ((tr ++ flat_map
                (fun api =>
                   [Log (Logger.info ("Generate swagger documentation for API "
                                        ++ Api.version api));
                    swaggerCall this api])
                apis)%list,
       first) /\
    List.length first = List.length apis.
Proof.
  revert tr. induction apis as [| api rest IH]; intros tr; simpl.
  - exists []. rewrite app_nil_r. split; reflexivity.
  - match goal with
    | |- context [untilFirstAwait rejects this rest ?t] =>
        destruct (IH t) as (first & Heq & Hlen); rewrite Heq
    end.
    eexists. split.
    + rewrite <- !app_assoc. reflexivity.
    + simpl. rewrite Hlen. reflexivity.
Qed.

Lemma afterFirstAwait_trace (resumed : list (Api.t * option Thrown))
      (tr : list Event) :
  exists evs second,
    afterFirstAwait rejects resumed tr = ((tr ++ evs)%list, second) /\
    incl evs (map swaggerUiCall (map fst resumed)) /\
    (Forall (fun x => snd x = None) resumed ->
     evs = map swaggerUiCall (map fst resumed)).
Proof.
  revert tr. induction resumed as [| [api settled] rest IH]; intros tr; simpl.
  - exists [], []. rewrite app_nil_r. repeat split.
    apply incl_refl.
  - destruct settled as [t |].
    + destruct (IH tr) as (evs & second & Heq & Hincl & Hall).
      exists evs, second. split; [exact Heq |]. split.
      * apply incl_tl. exact Hincl.
      * intros H. inversion H; subst. discriminate.
    + destruct (IH (tr ++ [swaggerUiCall api])%list)
        as (evs & second & Heq & Hincl & Hall).
      rewrite Heq. exists (swaggerUiCall api :: evs). eexists.
      split; [rewrite <- app_assoc; reflexivity |]. split.
      * apply incl_cons; [left; reflexivity | apply incl_tl; exact Hincl].
      * intros H. inversion H; subst. rewrite Hall by assumption. reflexivity.
Qed.

Lemma firstRejection_none_left (a b : list (option Thrown)) :
  firstRejection (a ++ b) = None -> Forall (fun o => o = None) a.
Proof.
  induction a as [| o rest IH]; simpl; intros H.
  - constructor.
  - destruct o as [t |]; [discriminate |].
    constructor; [reflexivity | apply IH; exact H].
Qed.

Lemma combine_fst {A B : Type} (xs : list A) (ys : list B) :
  List.length ys = List.length xs -> map fst (combine xs ys) = xs.
Proof.
  revert ys. induction xs as [| x rest IH]; intros [| y ys] H; simpl in *;
    try discriminate; try reflexivity.
  rewrite IH by lia. reflexivity.
Qed.

Lemma combine_snd_all {A B : Type} (P : B -> Prop) (xs : list A) (ys : list B) :
  Forall P ys -> Forall (fun x => P (snd x)) (combine xs ys).
Proof.
  intros H. revert xs. induction H as [| y ys Hy _ IH]; intros [| x xs]; simpl;
    constructor; [exact Hy | apply IH].
Qed.

(** What [initMiddlewares] issues, whatever rejects. *)
Lemma initMiddlewares_trace (tr : list Event) :
  exists rest,
    fst (initMiddlewares rejects this tr)
    = (tr ++ swaggerFirstCalls this ++ rest)%list /\
    incl rest (map swaggerUiCall (This.apis this)) /\
    (snd (initMiddlewares rejects this tr) = Resolved tt ->
     rest = map swaggerUiCall (This.apis this)).
Proof.
  unfold initMiddlewares, swaggerFirstCalls.
  destruct (untilFirstAwait_trace (This.apis this) tr) as (first & Heq & Hlen).
  rewrite Heq.
  match goal with
  | |- context [afterFirstAwait rejects ?r ?t] =>
      destruct (afterFirstAwait_trace r t) as (evs & second & Heq2 & Hincl & Hall)
  end.
  rewrite Heq2. rewrite (combine_fst _ _ Hlen) in Hincl, Hall.
  exists evs.
  destruct (firstRejection (first ++ second)) as [t |] eqn:Hfirst; simpl.
  - split; [rewrite <- app_assoc; reflexivity |].
    split; [exact Hincl | discriminate].
  - split; [rewrite <- app_assoc; reflexivity |].
    split; [exact Hincl |].
    intros _. apply Hall.
    apply (combine_snd_all (fun o => o = None)).
    apply (firstRejection_none_left _ _ Hfirst).
Qed.

Lemma swaggerUiCalls_no_listen (evs : list Event) (apis : list Api.t) :
  incl evs (map swaggerUiCall apis) -> existsb isListen evs = false.
Proof.
  intros Hincl. induction evs as [| ev rest IH]; [reflexivity |].
  simpl. rewrite IH by (intros x Hx; apply Hincl; right; exact Hx).
  assert (Hev : In ev (map swaggerUiCall apis)) by (apply Hincl; left; reflexivity).
  apply in_map_iff in Hev. destruct Hev as (api & <- & _). reflexivity.
Qed.

Lemma swaggerFirstCalls_no_listen :
  existsb isListen (swaggerFirstCalls this) = false.
Proof.
  unfold swaggerFirstCalls.
  induction (This.apis this) as [| api rest IH]; simpl; [reflexivity | exact IH].
Qed.

Lemma swaggerCalls_split :
  swaggerCalls this
  = (swaggerFirstCalls this ++ map swaggerUiCall (This.apis this))%list.
Proof. reflexivity. Qed.

(** [initMiddlewares] either resolves after the calls of [swaggerCalls],
    or rejects after calls among which there is no [listen]. *)
Lemma initMiddlewares_cases (tr : list Event) :
  initMiddlewares rejects this tr = ((tr ++ swaggerCalls this)%list, Resolved tt) \/
  exists evs t,
    initMiddlewares rejects this tr = ((tr ++ evs)%list, Rejected t) /\
    existsb isListen evs = false.
Proof.
  destruct (initMiddlewares_trace tr) as (rest & Htr & Hincl & Hres).
  destruct (initMiddlewares rejects this tr) as [tr' [[] | t]] eqn:E;
    simpl in Htr, Hres.
  - left. rewrite Htr, (Hres eq_refl), swaggerCalls_split. reflexivity.
  - right. exists (swaggerFirstCalls this ++ rest)%list, t.
    split; [rewrite Htr; reflexivity |].
    rewrite existsb_app, swaggerFirstCalls_no_listen.
    apply (swaggerUiCalls_no_listen _ _ Hincl).
Qed.

Lemma initServe_cases (tr : list Event) :
  initServe rejects moduleDir pathJoin tr
  = match rejects tr (staticCall moduleDir pathJoin) with
    | None => ((tr ++ serveCalls moduleDir pathJoin)%list, Resolved tt)
    | Some t => ((tr ++ [staticCall moduleDir pathJoin])%list, Rejected t)
    end.
Proof.
  unfold initServe, serveCalls, staticCall, bind, await, call.
  destruct (rejects tr _); [reflexivity |].
  rewrite <- app_assoc. reflexivity.
Qed.

Lemma initPlugins_cases (tr : list Event) :
  initPlugins rejects WHITE_ROUTES MAX_FILE_SIZE_IN_MB getSizeInBytes this tr
  = match rejects tr (authorizationCall WHITE_ROUTES this) with
    | Some t => ((tr ++ [authorizationCall WHITE_ROUTES this])%list, Rejected t)
    | None =>
        ((tr ++ pluginCalls WHITE_ROUTES MAX_FILE_SIZE_IN_MB getSizeInBytes this)%list,
         match rejects (tr ++ [authorizationCall WHITE_ROUTES this])%list
                       (fileUploadCall MAX_FILE_SIZE_IN_MB getSizeInBytes) with
         | Some t => Rejected t
         | None => Resolved tt
         end)
    end.
Proof.
  unfold initPlugins, pluginCalls, authorizationCall, fileUploadCall, bind, await.
  destruct (rejects tr _); [reflexivity |].
  destruct (rejects (tr ++ _)%list _); rewrite <- app_assoc; reflexivity.
Qed.

End Failures.

Section Resolved.

Variable rejects : Rejects.
Variable this : This.t.

Lemma registrationsResolve_app (a b pre : list Event) :
  registrationsResolve rejects pre (a ++ b)
  = registrationsResolve rejects pre a
    && registrationsResolve rejects (pre ++ a)%list b.
Proof.
  revert pre. induction a as [| ev rest IH]; intros pre; simpl.
  - rewrite app_nil_r. reflexivity.
  - rewrite IH, <- app_assoc, andb_assoc. reflexivity.
Qed.

Lemma registrationsResolve_at (l pre a post : list Event) (ev : Event) :
  registrationsResolve rejects pre l = true ->
  l = (a ++ ev :: post)%list ->
  isRegistration ev = true ->
  rejects (pre ++ a)%list ev = None.
Proof.
  intros H -> Hev. rewrite registrationsResolve_app in H.
  apply andb_prop in H. destruct H as [_ H]. simpl in H. rewrite Hev in H.
  destruct (rejects (pre ++ a)%list ev); [discriminate | reflexivity].
Qed.

Lemma registrationsResolve_plain (l pre : list Event) :
  existsb isRegistration l = false ->
  registrationsResolve rejects pre l = true.
Proof.
  revert pre. induction l as [| ev rest IH]; intros pre H; [reflexivity |].
  simpl in H. apply orb_false_iff in H. destruct H as [Hev Hrest].
  simpl. rewrite Hev, (IH _ Hrest). reflexivity.
Qed.

Lemma firstRejection_none_both (a b : list (option Thrown)) :
  firstRejection (a ++ b) = None ->
  Forall (fun o => o = None) a /\ Forall (fun o => o = None) b.
Proof.
  induction a as [| o rest IH]; simpl; intros H.
  - split; [constructor |].
    induction b as [| o rest IH]; [constructor |].
    simpl in H. destruct o; [discriminate |].
    constructor; [reflexivity | apply IH; exact H].
  - destruct o as [t |]; [discriminate |].
    destruct (IH H) as [Ha Hb]. split; [constructor; [reflexivity | exact Ha] | exact Hb].
Qed.

Lemma swaggerFirst_resolve (apis : list Api.t) (tr : list Event) :
  Forall (fun o => o = None) (snd (untilFirstAwait rejects this apis tr)) ->
  registrationsResolve rejects tr
    (flat_map
       (fun api =>
          [Log (Logger.info ("Generate swagger documentation for API "
                               ++ Api.version api));
           swaggerCall this api])
       apis) = true.
Proof.
  revert tr. induction apis as [| api rest IH]; intros tr H; [reflexivity |].
  cbn [untilFirstAwait] in H.
  destruct (untilFirstAwait rejects this rest _) as [tr2 others] eqn:E.
  cbn [snd] in H. apply Forall_cons_iff in H. destruct H as [Ho Hos].
  cbn [flat_map app registrationsResolve isRegistration].
  rewrite Ho. cbn [andb].
  apply IH. rewrite E. exact Hos.
Qed.

Lemma swaggerUi_resolve (resumed : list (Api.t * option Thrown))
      (tr : list Event) :
  Forall (fun x => snd x = None) resumed ->
  Forall (fun o => o = None) (snd (afterFirstAwait rejects resumed tr)) ->
  registrationsResolve rejects tr (map swaggerUiCall (map fst resumed)) = true.
Proof.
  revert tr. induction resumed as [| [api settled] rest IH]; intros tr Hall H;
    [reflexivity |].
  apply Forall_cons_iff in Hall. destruct Hall as [Hx Hxs].
  cbn [snd] in Hx. subst settled.
  cbn [afterFirstAwait] in H.
  destruct (afterFirstAwait rejects rest _) as [tr1 others] eqn:E.
  cbn [snd] in H. apply Forall_cons_iff in H. destruct H as [Ho Hos].
  cbn [map fst registrationsResolve].
  rewrite Ho. cbn [andb].
  apply IH; [exact Hxs |]. rewrite E. exact Hos.
Qed.

(** When [initMiddlewares] resolves, each of its registrations resolved. *)
Lemma initMiddlewares_resolve (tr : list Event) :
  snd (initMiddlewares rejects this tr) = Resolved tt ->
  registrationsResolve rejects tr (swaggerCalls this) = true.
Proof.
  unfold initMiddlewares. intros H.
  destruct (untilFirstAwait_trace rejects this (This.apis this) tr)
    as (first & Heq & Hlen).
  pose proof (swaggerFirst_resolve (This.apis this) tr) as Huntil.
  rewrite Heq in H, Huntil. cbn [snd] in Huntil.
  pose proof (swaggerUi_resolve (combine (This.apis this) first)
                (tr ++ swaggerFirstCalls this)%list) as Hafter.
  unfold swaggerFirstCalls in Hafter.
  destruct (afterFirstAwait rejects (combine (This.apis this) first) _)
    as [tr2 second].
  destruct (firstRejection (first ++ second)) as [t |] eqn:Hfirst;
    [discriminate |].
  destruct (firstRejection_none_both _ _ Hfirst) as [Hf Hs].
  rewrite swaggerCalls_split, registrationsResolve_app.
  unfold swaggerFirstCalls. rewrite (Huntil Hf). cbn [andb].
  rewrite (combine_fst _ _ Hlen) in Hafter. apply Hafter.
  - apply (combine_snd_all (fun o => o = None)). exact Hf.
  - exact Hs.
Qed.

End Resolved.

Section InitCases.

Variable rejects : Rejects.
Variable WHITE_ROUTES : JsValue.
Variable MAX_FILE_SIZE_IN_MB : Z.
Variable getSizeInBytes : Z -> Z.
Variable moduleDir : string.
Variable pathJoin : string -> string -> string.
Variable this : This.t.

Lemma swaggerUiCalls_no_route (evs : list Event) (apis : list Api.t) :
  incl evs (map swaggerUiCall apis) -> registered evs = [].
Proof.
  intros Hincl. induction evs as [| ev rest IH]; [reflexivity |].
  assert (Hev : In ev (map swaggerUiCall apis)) by (apply Hincl; left; reflexivity).
  apply in_map_iff in Hev. destruct Hev as (api & <- & _). simpl.
  apply IH. intros x Hx. apply Hincl. right. exact Hx.
Qed.

Lemma swaggerFirstCalls_no_route :
  registered (swaggerFirstCalls this) = [].
Proof.
  unfold swaggerFirstCalls.
  induction (This.apis this) as [| api rest IH]; simpl; [reflexivity | exact IH].
Qed.

(** A rejection of [initMiddlewares] leaves no route registered. *)
Lemma initMiddlewares_rejected_no_route (tr : list Event) (evs : list Event)
      (t : Thrown) :
  initMiddlewares rejects this tr = ((tr ++ evs)%list, Rejected t) ->
  registered evs = [].
Proof.
  intros H.
  destruct (initMiddlewares_trace rejects this tr) as (rest & Htr & Hincl & _).
  rewrite H in Htr. simpl in Htr. apply app_inv_head in Htr. subst evs.
  rewrite registered_app, swaggerFirstCalls_no_route.
  apply (swaggerUiCalls_no_route _ _ Hincl).
Qed.

Lemma startup_no_listen :
  existsb isListen
    (startup WHITE_ROUTES MAX_FILE_SIZE_IN_MB getSizeInBytes moduleDir pathJoin this)
  = false.
Proof.
  unfold startup. rewrite !existsb_app.
  rewrite swaggerCalls_split, existsb_app, swaggerFirstCalls_no_listen.
  rewrite (swaggerUiCalls_no_listen _ (This.apis this) (incl_refl _)).
  assert (Hroutes : existsb isListen (routeCalls this) = false).
  { unfold routeCalls.
    induction (flat_map Api.routes (This.apis this)) as [| p rest IH]; simpl;
      [reflexivity | exact IH]. }
  rewrite Hroutes. reflexivity.
Qed.

(** [init], started after the calls [tr0], whatever rejects: either it
    rejects before it listens, or it has issued the whole start-up and
    ends as [listen] decides. *)
Lemma init_cases (tr0 : list Event) :
  let start :=
    startup WHITE_ROUTES MAX_FILE_SIZE_IN_MB getSizeInBytes moduleDir pathJoin this in
  let result :=
    init rejects WHITE_ROUTES MAX_FILE_SIZE_IN_MB getSizeInBytes
         moduleDir pathJoin this tr0 in
  (exists evs t,
      result = ((tr0 ++ evs)%list, Rejected t) /\
      existsb isListen evs = false /\
      registered evs = []) \/
  (result
   = match rejects (tr0 ++ start)%list (listenCall this) with
     | None =>
         ((tr0 ++ start ++ [listenCall this; Log (listening this)])%list, Resolved tt)
     | Some (ThrownError e) =>
         ((tr0 ++ start ++ [listenCall this; listenFailureLog e])%list,
          Rejected (ThrownError e))
     | Some (ThrownValue v) =>
         ((tr0 ++ start ++ [listenCall this])%list, Rejected (ThrownValue v))
     end /\
   registrationsResolve rejects tr0 start = true).
Proof.
  intros start result.
  assert (E : result
              = init rejects WHITE_ROUTES MAX_FILE_SIZE_IN_MB getSizeInBytes
                     moduleDir pathJoin this tr0) by reflexivity.
  clearbody result. unfold init in E.
  rewrite bind_call in E. unfold bind at 1 in E. rewrite initServe_cases in E.
  destruct (rejects _ (staticCall moduleDir pathJoin)) as [t |] eqn:Hstatic.
  { left. eexists. exists t. rewrite E, <- app_assoc.
    split; [reflexivity | split; reflexivity]. }
  unfold bind at 1 in E.
  destruct (initMiddlewares_cases rejects this
              ((tr0 ++ [Log (Logger.info "Application initialization…")])
                 ++ serveCalls moduleDir pathJoin)%list)
    as [Hmid | (evs & t & Hmid & Hnl)]; rewrite Hmid in E.
  2:{ left. eexists. exists t. rewrite E, <- !app_assoc. split; [reflexivity |].
      simpl. split; [exact Hnl |].
      apply (initMiddlewares_rejected_no_route _ _ _ Hmid). }
  unfold initValidationCompiler, initErrorHandler in E. rewrite !bind_call in E.
  unfold bind at 1 in E. rewrite initPlugins_cases in E.
  destruct (rejects _ (authorizationCall WHITE_ROUTES this)) as [t |] eqn:Hauth.
  { left. eexists. exists t. rewrite E, <- !app_assoc. split; [reflexivity |].
    simpl. rewrite !existsb_app, !registered_app, swaggerCalls_split, existsb_app,
             registered_app, swaggerFirstCalls_no_listen,
             swaggerFirstCalls_no_route,
             (swaggerUiCalls_no_listen _ (This.apis this) (incl_refl _)),
             (swaggerUiCalls_no_route _ (This.apis this) (incl_refl _)).
    split; reflexivity. }
  destruct (rejects _ (fileUploadCall MAX_FILE_SIZE_IN_MB getSizeInBytes))
    as [t |] eqn:Hupload.
  { left. eexists. exists t. rewrite E, <- !app_assoc. split; [reflexivity |].
    simpl. rewrite !existsb_app, !registered_app, swaggerCalls_split, existsb_app,
             registered_app, swaggerFirstCalls_no_listen,
             swaggerFirstCalls_no_route,
             (swaggerUiCalls_no_listen _ (This.apis this) (incl_refl _)),
             (swaggerUiCalls_no_route _ (This.apis this) (incl_refl _)).
    split; reflexivity. }
  assert (Hres : registrationsResolve rejects tr0 start = true).
  { assert (Hmidres :
              snd (initMiddlewares rejects this
                     ((tr0 ++ [Log (Logger.info "Application initialization…")])
                        ++ serveCalls moduleDir pathJoin)%list) = Resolved tt)
      by (rewrite Hmid; reflexivity).
    assert (Hroutes : existsb isRegistration (routeCalls this) = false).
    { unfold routeCalls.
      induction (flat_map Api.routes (This.apis this)) as [| p rest IH]; simpl;
        [reflexivity | exact IH]. }
    unfold start, startup. rewrite !registrationsResolve_app.
    rewrite (initMiddlewares_resolve rejects this _ Hmidres).
    rewrite (registrationsResolve_plain rejects (routeCalls this) _ Hroutes).
    unfold serveCalls, pluginCalls.
    unfold staticCall in Hstatic.
    unfold authorizationCall in Hauth.
    unfold authorizationCall, fileUploadCall in Hupload.
    cbn [registrationsResolve isRegistration].
    unfold serveCalls in Hauth, Hupload.
    rewrite Hstatic, Hauth, Hupload. reflexivity. }
  right. split; [| exact Hres]. clear Hres. cbv beta iota in E.
  unfold bind at 1 in E. unfold initRoutes in E. rewrite addRoutes_trace in E.
  unfold initSocket, initCrons in E. rewrite !bind_call in E.
  fold (routeCalls this) in E.
  match type of E with
  | _ = try_catch _ _ ?t => replace t with (tr0 ++ start)%list in E
  end.
  2:{ subst start. unfold startup. rewrite <- !app_assoc. reflexivity. }
  rewrite E. clear E. clearbody start.
  unfold try_catch, bind, await, listenCall.
  destruct (rejects (tr0 ++ start)%list _) as [[e | v] |]; simpl.
  - unfold call, throw, listenFailureLog. rewrite <- !app_assoc. reflexivity.
  - unfold ret, throw. rewrite <- !app_assoc. reflexivity.
  - unfold call. rewrite <- !app_assoc. reflexivity.
Qed.

End InitCases.

(* ================================================================== *)
(** * Further properties of the bootstrap                             *)
(* ================================================================== *)

Lemma listen_at (a b pre post : list Event) (x ev : Event) :
  existsb isListen a = false ->
  existsb isListen b = false ->
  (a ++ x :: b)%list = (pre ++ ev :: post)%list ->
  isListen ev = true ->
  pre = a /\ ev = x.
Proof.
  intros Ha Hb. revert pre.
  induction a as [| a0 rest IH]; intros [| p0 pre] Heq Hev; simpl in Heq.
  - injection Heq as -> _. split; reflexivity.
  - injection Heq as _ Hrest. subst b.
    rewrite existsb_app in Hb. simpl in Hb. rewrite Hev, orb_true_r in Hb.
    discriminate.
  - injection Heq as -> _. simpl in Ha. rewrite Hev in Ha. discriminate.
  - injection Heq as -> Hrest.
    simpl in Ha. apply orb_false_iff in Ha. destruct Ha as [_ Ha].
    destruct (IH Ha pre Hrest Hev) as [-> ->]. split; reflexivity.
Qed.



Example static_rejection_stops_init :
  run (Sample.init (staticRejects (ThrownValue (JStr "ENOENT"))))
  = ([Log (Logger.info "Application initialization…");
      staticCall Sample.moduleDir Sample.pathJoin],
     Rejected (ThrownValue (JStr "ENOENT"))).
Proof. vm_compute. reflexivity. Qed.



Example listen_rejection_rejects_init :
  snd (run (Sample.init (Sample.listenRejects (ThrownValue (JStr "EADDRINUSE")))))
  = Rejected (ThrownValue (JStr "EADDRINUSE")).
Proof. vm_compute. reflexivity. Qed.

Lemma afterFirstAwait_length (rejects : Rejects)
      (resumed : list (Api.t * option Thrown)) (tr : list Event) :
  (List.length (fst (afterFirstAwait rejects resumed tr))
   <= List.length tr + List.length resumed)%nat.
Proof.
  revert tr. induction resumed as [| [api [t |]] rest IH]; intros tr; simpl.
  - lia.
  - specialize (IH tr). lia.
  - specialize (IH (tr ++ [swaggerUiCall api])%list).
    destruct (afterFirstAwait rejects rest (tr ++ [swaggerUiCall api])%list)
      as [tr' second].
    simpl in *. rewrite length_app in IH. simpl in IH. lia.
Qed.

(** X3.  [initMiddlewares] issues the log line and the [swagger]
    registration of every API, in [apis] order, whatever rejects; what
    follows are [swaggerUi] registrations of these APIs only, at most as
    many as there are APIs; and when it resolves, every API has got its
    [swaggerUi] registration (in whichever order the callbacks
    resumed). *)
Theorem initMiddlewares_issues_every_swagger
        (rejects : Rejects) (this : This.t) (tr : list Event) :
  exists rest,
    fst (initMiddlewares rejects this tr)
    = (tr ++ swaggerFirstCalls this ++ rest)%list /\
    incl rest (map swaggerUiCall (This.apis this)) /\
    (List.length rest <= List.length (This.apis this))%nat /\
    (snd (initMiddlewares rejects this tr) = Resolved tt ->
     Permutation rest (map swaggerUiCall (This.apis this))).
Proof.
  destruct (initMiddlewares_trace rejects this tr) as (rest & Htr & Hincl & Hres).
  exists rest. repeat split; try assumption.
  - assert (Hlen : (List.length (fst (initMiddlewares rejects this tr))
                    <= List.length (tr ++ swaggerFirstCalls this)
                       + List.length (This.apis this))%nat).
    { unfold initMiddlewares.
      destruct (untilFirstAwait_trace rejects this (This.apis this) tr)
        as (first & Heq & Hfirst).
      rewrite Heq. fold (swaggerFirstCalls this).
      pose proof (afterFirstAwait_length rejects
                    (combine (This.apis this) first)
                    (tr ++ swaggerFirstCalls this)%list) as Hafter.
      rewrite length_combine, Hfirst, Nat.min_id in Hafter.
      destruct (afterFirstAwait rejects (combine (This.apis this) first)
                  (tr ++ swaggerFirstCalls this)%list) as [tr2 second].
      destruct (firstRejection (first ++ second)); exact Hafter. }
    rewrite Htr, app_assoc, length_app in Hlen. lia.
  - intros Hout. rewrite (Hres Hout). apply Permutation_refl.
Qed.

Lemma initMiddlewares_issues_every_swagger_witness :
  exists rest,
    fst (initMiddlewares Sample.allResolve Sample.this [])
    = (swaggerFirstCalls Sample.this ++ rest)%list /\
    Permutation rest (map swaggerUiCall (This.apis Sample.this)).
Proof.
  destruct (initMiddlewares_issues_every_swagger Sample.allResolve Sample.this [])
    as (rest & Htr & _ & _ & Hres).
  exists rest. split; [exact Htr | exact (Hres eq_refl)].
Defined.

Example swagger_rejection_skips_swaggerUi :
  initMiddlewares (swaggerRejects (ThrownValue (JStr "bad document"))) Sample.this []
  = (swaggerFirstCalls Sample.this, Rejected (ThrownValue (JStr "bad document"))).
Proof. vm_compute. reflexivity. Qed.

(** X4.  [initServe] calls [setNotFoundHandler] only after the
    registration of the static plugin has resolved: then its calls are
    that registration and the installation of the [index.html] handler,
    which is the application's not-found handler afterwards; when the
    registration rejects, [initServe] rejects with the same value and
    has called nothing else. *)
Theorem initServe_installs_fallback_when_static_resolves
        (rejects : Rejects) (moduleDir : string)
        (pathJoin : string -> string -> string) (builtin : Fastify.App) :
  let result := run (initServe rejects moduleDir pathJoin) in
  match rejects [] (staticCall moduleDir pathJoin) with
  | None =>
      result
      = ([staticCall moduleDir pathJoin;
          SetNotFoundHandler (notFoundHandler moduleDir pathJoin)],
         Resolved tt) /\
      Fastify.notFoundHandler (Fastify.configure builtin (fst result))
      = notFoundHandler moduleDir pathJoin
  | Some t =>
      result = ([staticCall moduleDir pathJoin], Rejected t)
  end.
Proof.
  intros result. subst result. unfold run.
  rewrite initServe_cases.
  destruct (rejects [] (staticCall moduleDir pathJoin)) as [t |]; simpl.
  - reflexivity.
  - split; reflexivity.
Qed.

(** X5.  The error handler logs every error it answers, at error level
    only: one entry for the error, and for a validation error one more
    per issue. *)
Theorem errorHandler_logs_every_error
        (error : ErrorObject.t) (request : Request.t) (reply : Reply.t) :
  let logged := fst (errorHandler error request reply) in
  forallb isErrorEntry logged = true /\
  List.length logged
  = match ErrorObject.issues error with
    | Some issues => S (List.length issues)
    | None => 1%nat
    end.
Proof.
  unfold errorHandler.
  destruct (ErrorObject.issues error) as [issues |]; simpl.
  - split.
    + induction issues as [| i rest IH]; simpl; [reflexivity | exact IH].
    + rewrite length_map. reflexivity.
  - destruct (ErrorObject.status error); simpl; split; reflexivity.
Qed.

(** X6.  Registering routes in two batches is the same as registering
    their concatenation at once, and registering no route does nothing. *)
Theorem addRoutes_in_batches
        (a b : list RouteParameters.t) (tr : list Event) :
  addRoutes (a ++ b) tr = bind (addRoutes a) (fun _ => addRoutes b) tr /\
  addRoutes [] tr = (tr, Resolved tt).
Proof.
  split; [| reflexivity].
  unfold bind. rewrite !addRoutes_trace, flat_map_app, app_assoc. reflexivity.
Qed.

(** X7.  [addRoutes] only appends: the application keeps its validator
    compiler, error handler and not-found handler, keeps the routes it
    had, in place, and gains one route per parameter, in order. *)
Theorem addRoutes_only_appends
        (builtin : Fastify.App) (ps : list RouteParameters.t) (tr : list Event) :
  let before := Fastify.configure builtin tr in
  let after := Fastify.configure builtin (fst (addRoutes ps tr)) in
  Fastify.validatorCompiler after = Fastify.validatorCompiler before /\
  Fastify.errorHandler after = Fastify.errorHandler before /\
  Fastify.notFoundHandler after = Fastify.notFoundHandler before /\
  Fastify.routes after
  = (Fastify.routes before ++ map routeParameters ps)%list.
Proof.
  intros before after. subst before after.
  rewrite addRoutes_trace. simpl fst. rewrite configure_app.
  assert (Hkeep : forallb keepsHandlers (flat_map routeCall ps) = true).
  { induction ps as [| p rest IH]; simpl; [reflexivity | exact IH]. }
  destruct (configure_keeps _ (Fastify.configure builtin tr) Hkeep)
    as (Hv & He & Hn).
  repeat split; try assumption.
  rewrite configure_routes, registered_routeCalls. reflexivity.
Qed.

(* ================================================================== *)
(** * Further properties of request handling                          *)
(* ================================================================== *)

(** X8.  For a request routed to a route built by [addRoute], on an
    application with the bootstrap's validator compiler: the route
    handler runs only if no schema of the route's validation object
    rejects the request and every preHandler given to [addRoute] has
    passed; a request stopped by a preHandler ends in the error
    handler. *)
Theorem handler_runs_only_if_valid_and_allowed
        (matches : RouteOptions.t -> Request.t -> bool)
        (app : Fastify.App) (p : RouteParameters.t) (req : Request.t)
        (compiled : Fastify.validatorCompiler app = validatorCompiler)
        (routed : Fastify.lookup matches app req = Some (routeParameters p)) :
  let exchange := Fastify.handleRequest matches app req in
  (In Fastify.RouteHandler (Fastify.stages exchange) ->
   ~ invalidFor p req /\
   Fastify.runPreHandlers (preHandlersOf p) req = Resolved tt) /\
  (forall e,
      Fastify.runPreHandlers (preHandlersOf p) req = Rejected e ->
      ~ In Fastify.RouteHandler (Fastify.stages exchange) /\
      In Fastify.ErrorHandling (Fastify.stages exchange)).
Proof.
  intros exchange. subst exchange.
  unfold Fastify.handleRequest. rewrite routed.
  change (RouteOptions.preHandler (routeParameters p)) with (preHandlersOf p).
  split.
  - intros Hin.
    destruct (Fastify.validate app (routeParameters p) req) as [[] | e] eqn:Hval.
    + split.
      * intros Hinvalid.
        destruct (validate_rejects app p req compiled Hinvalid) as [e He].
        congruence.
      * destruct (Fastify.runPreHandlers (preHandlersOf p) req) as [[] | e];
          [reflexivity |].
        rewrite onError_stages in Hin. simpl in Hin.
        destruct Hin as [H | [H | [H | []]]]; discriminate.
    + rewrite onError_stages in Hin. simpl in Hin.
      destruct Hin as [H | [H | []]]; discriminate.
  - intros e Hpre. rewrite Hpre.
    destruct (Fastify.validate app (routeParameters p) req) as [[] | e'];
      rewrite onError_stages; simpl; split.
    + intros [H | [H | [H | []]]]; discriminate.
    + right. right. left. reflexivity.
    + intros [H | [H | []]]; discriminate.
    + right. left. reflexivity.
Qed.

Lemma handler_runs_only_if_valid_and_allowed_witness :
  ~ invalidFor Sample.addCourse
      (Sample.post "/api/v1/user-courses" (JObj [("vendorId", JNum 1)])) /\
  Fastify.runPreHandlers (preHandlersOf Sample.addCourse)
    (Sample.post "/api/v1/user-courses" (JObj [("vendorId", JNum 1)]))
  = Resolved tt.
Proof.
  destruct (handler_runs_only_if_valid_and_allowed Sample.matches Sample.app
              Sample.addCourse
              (Sample.post "/api/v1/user-courses" (JObj [("vendorId", JNum 1)]))
              eq_refl eq_refl) as [Hruns _].
  apply Hruns. vm_compute. right. right. left. reflexivity.
Defined.

(* ================================================================== *)
(** * Construction followed by [init]                                 *)
(* ================================================================== *)



(* ================================================================== *)
(** * Further properties of the controller                            *)
(* ================================================================== *)

(** X11.  The GET root handler ignores the request options; it resolves
    exactly when the service's promise resolves, and when that promise
    rejects it rejects with the same value, building no response. *)
Theorem findAllByVendor_resolves_iff_service_does
        (World : Type) (courseService : CourseController.CourseService World)
        (ROOT : string) (options : JsValue) (w : World) :
  let route := CourseController.rootRoute World courseService ROOT in
  (forall options',
      CourseController.handler World route options' w
      = CourseController.handler World route options w) /\
  ((exists response,
       CourseController.handler World route options w = Resolved response) <->
   (exists found,
       CourseController.service_findAllByVendor World courseService w
       = Resolved found)) /\
  (forall t,
      CourseController.service_findAllByVendor World courseService w = Rejected t ->
      CourseController.handler World route options w = Rejected t).
Proof.
  simpl. unfold CourseController.findAllByVendor.
  split; [reflexivity |].
  destruct (CourseController.service_findAllByVendor World courseService w)
    as [found | t0].
  - split.
    + split; intros _; eexists; reflexivity.
    + intros t H. discriminate.
  - split.
    + split; intros [x H]; discriminate.
    + intros t H. injection H as ->. reflexivity.
Qed.

Lemma findAllByVendor_resolves_iff_service_does_witness :
  CourseController.handler nat
    (CourseController.rootRoute nat SampleCourses.courseService "/")
    (JObj [("page", JNum 2)]) 1%nat
  = Rejected (ThrownValue (JStr "timeout")).
Proof.
  destruct (findAllByVendor_resolves_iff_service_does
              nat SampleCourses.courseService "/" (JObj [("page", JNum 2)]) 1%nat)
    as (_ & _ & Hrejects).
  apply Hrejects. reflexivity.
Defined.

(* ================================================================== *)
(** * Further properties of NotificationListItem                      *)
(* ================================================================== *)

Lemma deps_eqb_refl (d : bool * bool * CallbackRef * Z) :
  NotificationListItem.deps_eqb d d = true.
Proof.
  destruct d as [[[v r] c] i]. unfold NotificationListItem.deps_eqb.
  rewrite !Bool.eqb_reflx, Nat.eqb_refl, Z.eqb_refl. reflexivity.
Qed.

Lemma commits_unchanged (rest : list NotificationListItem.Render)
      (d : bool * bool * CallbackRef * Z) :
  Forall (fun r => NotificationListItem.deps r = d) rest ->
  NotificationListItem.commits (Some d) rest = [].
Proof.
  induction 1 as [| r rest Hr _ IH]; simpl; [reflexivity |].
  rewrite Hr, deps_eqb_refl, IH. reflexivity.
Qed.

(** X12.  While the dependencies of the effect (in view, read, the
    [onRead] callback, the notification's id) stay what they were at
    mount, re-renders invoke nothing: [onRead] is invoked at most once,
    by the first render, whatever else changes in the notification. *)
Theorem onRead_not_repeated_on_rerender
        (r : NotificationListItem.Render)
        (rest : list NotificationListItem.Render) :
  Forall (fun r' => NotificationListItem.deps r' = NotificationListItem.deps r)
         rest ->
  NotificationListItem.mounted (r :: rest) = NotificationListItem.effect r.
Proof.
  intros H. unfold NotificationListItem.mounted. simpl.
  rewrite (commits_unchanged rest _ H), app_nil_r. reflexivity.
Qed.

Lemma onRead_not_repeated_on_rerender_witness :
  NotificationListItem.mounted
    [SampleCourses.inView; SampleRenders.edited; SampleRenders.edited]
  = [Invoke 1%nat 42].
Proof.
  apply (onRead_not_repeated_on_rerender SampleCourses.inView
           [SampleRenders.edited; SampleRenders.edited]).
  repeat constructor.
Defined.

Lemma effect_quiet (r : NotificationListItem.Render) :
  quiet r = true -> NotificationListItem.effect r = [].
Proof.
  unfold quiet, NotificationListItem.effect.
  destruct (NotificationListItem.isRead r), (NotificationListItem.inView r);
    simpl; intros H; try reflexivity; discriminate.
Qed.

Lemma commits_quiet (after : list NotificationListItem.Render)
      (previous : option (bool * bool * CallbackRef * Z)) :
  forallb quiet after = true ->
  NotificationListItem.commits previous after = [].
Proof.
  revert previous. induction after as [| r rest IH]; intros previous H;
    [reflexivity |].
  simpl in H. apply andb_prop in H. destruct H as [Hr Hrest].
  simpl. rewrite (effect_quiet r Hr), (IH _ Hrest).
  destruct (match previous with Some d => _ | None => true end); reflexivity.
Qed.

(** X13.  Renders in which the notification is READ or the item is out
    of view invoke nothing: once the notification has been marked as read
    (or has left the view) and stays so, the invocations are those made
    before, and no more. *)
Theorem onRead_stops_once_read
        (before after : list NotificationListItem.Render) :
  forallb quiet after = true ->
  NotificationListItem.mounted (before ++ after)
  = NotificationListItem.mounted before.
Proof.
  intros H. unfold NotificationListItem.mounted.
  generalize (@None (bool * bool * CallbackRef * Z)).
  induction before as [| r rest IH]; intros previous; simpl.
  - apply commits_quiet. exact H.
  - rewrite IH. reflexivity.
Qed.

Lemma onRead_stops_once_read_witness :
  NotificationListItem.mounted
    ([SampleCourses.outOfView; SampleCourses.inView]
       ++ [SampleRenders.read; SampleRenders.read])
  = NotificationListItem.mounted [SampleCourses.outOfView; SampleCourses.inView].
Proof.
  apply (onRead_stops_once_read
           [SampleCourses.outOfView; SampleCourses.inView]
           [SampleRenders.read; SampleRenders.read]).
  reflexivity.
Defined.

(** X14.  What the list item shows depends on the notification only, not
    on the visibility or on the callback: it always has the
    [notification] class, has the [unread] class exactly when the status
    is not READ, and shows the user's avatar when there is one and the
    default avatar otherwise. *)
Theorem render_depends_on_notification_only
        (defaultAvatar USERS : string)
        (getTimeDistanceFormatDate : string -> string)
        (r : NotificationListItem.Render) :
  let view :=
    NotificationListItem.render defaultAvatar USERS getTimeDistanceFormatDate r in
  (forall r',
      NotificationListItem.notification r' = NotificationListItem.notification r ->
      NotificationListItem.render defaultAvatar USERS getTimeDistanceFormatDate r'
      = view) /\
  In NotificationListItem.notification_style
     (NotificationListItem.li_className view) /\
  (In NotificationListItem.unread_style (NotificationListItem.li_className view)
   <-> NotificationListItem.status (NotificationListItem.notification r)
       <> NotificationStatus.READ) /\
  NotificationListItem.image_src view
  = match NotificationListItem.userAvatarUrl (NotificationListItem.notification r)
    with
    | Some url => url
    | None => defaultAvatar
    end.
Proof.
  intros view. subst view.
  unfold NotificationListItem.render, NotificationListItem.className,
    NotificationListItem.isRead.
  split; [| split; [| split]].
  - intros r' H. rewrite H. reflexivity.
  - simpl. left. reflexivity.
  - destruct (NotificationListItem.status (NotificationListItem.notification r));
      simpl; split.
    + intros [H | []]. discriminate.
    + intros H. destruct (H eq_refl).
    + intros _. discriminate.
    + intros _. right. left. reflexivity.
  - reflexivity.
Qed.

Lemma render_depends_on_notification_only_witness :
  NotificationListItem.render "/assets/default-avatar.png" "/users"
    (fun date => date) SampleCourses.outOfView
  = NotificationListItem.render "/assets/default-avatar.png" "/users"
      (fun date => date) SampleCourses.inView.
Proof.
  destruct (render_depends_on_notification_only
              "/assets/default-avatar.png" "/users" (fun date => date)
              SampleCourses.inView) as (Hsame & _).
  apply (Hsame SampleCourses.outOfView). reflexivity.
Defined.

(* ================================================================== *)
(** * Further properties of the plugins                               *)
(* ================================================================== *)

(** X15.  [initPlugins] registers the authorization plugin first and the
    file-upload plugin only once that registration has resolved: when the
    authorization registration rejects, [initPlugins] rejects with the
    same value and file upload is not registered; otherwise file upload
    is registered once and [initPlugins] ends as that registration
    does. *)
Theorem initPlugins_registers_upload_after_authorization
        (rejects : Rejects) (WHITE_ROUTES : JsValue) (MAX_FILE_SIZE_IN_MB : Z)
        (getSizeInBytes : Z -> Z) (this : This.t) :
  let result :=
    run (initPlugins rejects WHITE_ROUTES MAX_FILE_SIZE_IN_MB getSizeInBytes this) in
  match rejects [] (authorizationCall WHITE_ROUTES this) with
  | Some t =>
      result = ([authorizationCall WHITE_ROUTES this], Rejected t) /\
      FileUpload.registrations (fst result) = []
  | None =>
      fst result
      = [authorizationCall WHITE_ROUTES this;
         fileUploadCall MAX_FILE_SIZE_IN_MB getSizeInBytes] /\
      List.length (FileUpload.registrations (fst result)) = 1%nat /\
      snd result
      = match rejects [authorizationCall WHITE_ROUTES this]
                      (fileUploadCall MAX_FILE_SIZE_IN_MB getSizeInBytes) with
        | Some t => Rejected t
        | None => Resolved tt
        end
  end.
Proof.
  intros result. subst result. unfold run.
  rewrite initPlugins_cases.
  destruct (rejects [] (authorizationCall WHITE_ROUTES this)) as [t |]; simpl.
  - split; reflexivity.
  - repeat split.
Qed.

Example authorization_rejection_skips_upload :
  run (initPlugins
         (fun _ ev =>
            match ev with
            | Register (Plugin.authorization _ _ _) =>
                Some (ThrownValue (JStr "no token secret"))
            | _ => None
            end)
         Sample.WHITE_ROUTES Sample.MAX_FILE_SIZE_IN_MB Sample.getSizeInBytes
         Sample.this)
  = ([authorizationCall Sample.WHITE_ROUTES Sample.this],
     Rejected (ThrownValue (JStr "no token secret"))).
Proof. vm_compute. reflexivity. Qed.
